(** * api_client.py: a shallow embedding of [APIClient]

    The client talks to three local LLM back ends (Ollama, LM Studio,
    Koboldcpp).  Python values are embedded as the [json] type, Python
    [str] as a list of Unicode code points, exceptions as an error monad,
    the caller's message dictionaries as a store indexed by location, the
    network and the file system as an explicit [world].

    Library functions the module calls ([json.loads], [str.lower]) are
    Section variables: every theorem holds for whatever they compute. *)

From Stdlib Require Import ZArith NArith List String Ascii Bool Lia Floats.
From Stdlib.Strings Require Import Byte.
From stdpp Require Import base option list gmap.

Set Warnings "-register-all".
Local Open Scope N_scope.

(** ** Python strings *)

(** A [str] is a sequence of Unicode code points. *)
Definition pystr := list N.

(** Literals of the source are written [py "..."] (ASCII only). *)
Definition py (s : string) : pystr :=
  List.map N_of_ascii (list_ascii_of_string s).
Arguments py : simpl never.

Fixpoint str_eqb (a b : pystr) : bool :=
  match a, b with
  | [], [] => true
  | x :: a', y :: b' => N.eqb x y && str_eqb a' b'
  | _, _ => false
  end.

(** [s.startswith(p)] *)
Fixpoint startswith (p s : pystr) : bool :=
  match p, s with
  | [], _ => true
  | x :: p', y :: s' => N.eqb x y && startswith p' s'
  | _ :: _, [] => false
  end.

(** [str.isspace] on one code point: the Unicode white space that
    [str.strip()] without argument removes. *)
Definition is_space (c : N) : bool :=
  ((9 <=? c) && (c <=? 13)) || ((28 <=? c) && (c <=? 32))
  || (c =? 133) || (c =? 160) || (c =? 5760)
  || ((8192 <=? c) && (c <=? 8202))
  || (c =? 8232) || (c =? 8233) || (c =? 8239) || (c =? 8287) || (c =? 12288).

Fixpoint lstrip_by (f : N -> bool) (s : pystr) : pystr :=
  match s with
  | [] => []
  | c :: s' => if f c then lstrip_by f s' else s
  end.

Definition rstrip_by (f : N -> bool) (s : pystr) : pystr :=
  rev (lstrip_by f (rev s)).

(** [s.strip()] *)
Definition strip (s : pystr) : pystr := rstrip_by is_space (lstrip_by is_space s).

(** [s.rstrip('/')] *)
Definition rstrip_slash (s : pystr) : pystr := rstrip_by (N.eqb 47) s.

(** ["{" in s] *)
Definition has_brace (s : pystr) : bool := existsb (N.eqb 123) s.

(** [needle in s] for strings: substring test. *)
Fixpoint str_contains (needle s : pystr) : bool :=
  startswith needle s ||
  match s with
  | [] => false
  | _ :: s' => str_contains needle s'
  end.

(** ** Bytes *)

Definition byte_val (b : byte) : N := Byte.to_N b.

Definition is_cont (b : N) : bool := (128 <=? b) && (b <=? 191).

(** [bytes.decode('utf-8')] in strict mode: [None] stands for
    [UnicodeDecodeError] (truncated or overlong sequences, surrogates,
    code points above U+10FFFF, stray continuation bytes). *)
Fixpoint utf8_decode (bs : list N) : option pystr :=
  match bs with
  | [] => Some []
  | b0 :: t =>
    if b0 <? 128 then option_map (cons b0) (utf8_decode t)
    else if (194 <=? b0) && (b0 <=? 223) then
      match t with
      | b1 :: t1 =>
        if is_cont b1
        then option_map (cons ((b0 - 192) * 64 + (b1 - 128))) (utf8_decode t1)
        else None
      | _ => None
      end
    else if (224 <=? b0) && (b0 <=? 239) then
      match t with
      | b1 :: b2 :: t2 =>
        let lo := if b0 =? 224 then 160 else 128 in
        let hi := if b0 =? 237 then 159 else 191 in
        if (lo <=? b1) && (b1 <=? hi) && is_cont b2
        then option_map
               (cons ((b0 - 224) * 4096 + (b1 - 128) * 64 + (b2 - 128)))
               (utf8_decode t2)
        else None
      | _ => None
      end
    else if (240 <=? b0) && (b0 <=? 244) then
      match t with
      | b1 :: b2 :: b3 :: t3 =>
        let lo := if b0 =? 240 then 144 else 128 in
        let hi := if b0 =? 244 then 143 else 191 in
        if (lo <=? b1) && (b1 <=? hi) && is_cont b2 && is_cont b3
        then option_map
               (cons ((b0 - 240) * 262144 + (b1 - 128) * 4096
                      + (b2 - 128) * 64 + (b3 - 128)))
               (utf8_decode t3)
        else None
      | _ => None
      end
    else None
  end.

Definition decode (line : list byte) : option pystr :=
  utf8_decode (List.map byte_val line).

(** The bytes of an ASCII literal, for building response lines. *)
Definition bytes_of (s : string) : list byte := list_byte_of_string s.

(** *** base64 *)

Definition b64_char (n : N) : N :=
  if n <? 26 then 65 + n
  else if n <? 52 then 97 + (n - 26)
  else if n <? 62 then 48 + (n - 52)
  else if n =? 62 then 43 else 47.

(** [base64.b64encode(bs).decode('utf-8')] *)
Fixpoint b64encode (bs : list N) : pystr :=
  match bs with
  | [] => []
  | [a] =>
    [b64_char (a / 4); b64_char ((a mod 4) * 16); 61; 61]
  | [a; b] =>
    [b64_char (a / 4); b64_char ((a mod 4) * 16 + b / 16);
     b64_char ((b mod 16) * 4); 61]
  | a :: b :: c :: t =>
    b64_char (a / 4) :: b64_char ((a mod 4) * 16 + b / 16)
    :: b64_char ((b mod 16) * 4 + c / 64) :: b64_char (c mod 64)
    :: b64encode t
  end.

(** ** Python values *)

(** What [json.loads] builds, which is also what the message
    dictionaries hold and what the generator can yield.  A [dict] is an
    association list in insertion order with distinct keys. *)
Inductive json : Type :=
| JNull
| JBool (b : bool)
| JInt (z : Z)
| JFloat (f : float)
| JStr (s : pystr)
| JArr (l : list json)
| JObj (kvs : list (pystr * json)).

Definition dict := list (pystr * json).

Fixpoint dict_get (k : pystr) (d : dict) : option json :=
  match d with
  | [] => None
  | (k', v) :: d' => if str_eqb k k' then Some v else dict_get k d'
  end.

(** [d[k] = v]: an existing key keeps its place, a new key goes last. *)
Fixpoint dict_set (k : pystr) (v : json) (d : dict) : dict :=
  match d with
  | [] => [(k, v)]
  | (k', v') :: d' =>
    if str_eqb k k' then (k', v) :: d' else (k', v') :: dict_set k v d'
  end.

(** [bool(v)] *)
Definition truthy (v : json) : bool :=
  match v with
  | JNull => false
  | JBool b => b
  | JInt z => negb (Z.eqb z 0)
  | JFloat f => negb (PrimFloat.eqb f PrimFloat.zero)
  | JStr s => match s with [] => false | _ => true end
  | JArr l => match l with [] => false | _ => true end
  | JObj kvs => match kvs with [] => false | _ => true end
  end.

(** [v == s] for a string literal [s] *)
Definition eq_str (v : json) (s : pystr) : bool :=
  match v with
  | JStr s' => str_eqb s' s
  | _ => false
  end.

(** ** Exceptions *)

Inductive exn : Type :=
| RequestException (msg : pystr)  (* requests.exceptions.RequestException and subclasses *)
| JSONDecodeError (msg : pystr)   (* json.JSONDecodeError *)
| KeyError
| IndexError
| TypeError
| AttributeError
| UnicodeDecodeError
| RecursionError                  (* json: nesting deeper than the interpreter allows *)
| ValueError                      (* json: an integer literal over the digit limit *)
| OSError (path : pystr).         (* open() failed *)

Inductive res (A : Type) : Type :=
| Ok (a : A)
| Raise (e : exn).
Arguments Ok {A} a.
Arguments Raise {A} e.

Definition bind {A B} (r : res A) (k : A -> res B) : res B :=
  match r with
  | Ok a => k a
  | Raise e => Raise e
  end.

Notation "'let!' x := r 'in' k" := (bind r (fun x => k))
  (at level 10, x name, r at level 100, k at level 200).

(** [for x in xs: f(x)] collecting results, stopping at the first raise. *)
Fixpoint mapM {A B} (f : A -> res B) (xs : list A) : res (list B) :=
  match xs with
  | [] => Ok []
  | x :: xs' => let! y := f x in let! ys := mapM f xs' in Ok (y :: ys)
  end.

(** [v[k]] with a string key *)
Definition subscript (v : json) (k : pystr) : res json :=
  match v with
  | JObj kvs => match dict_get k kvs with Some x => Ok x | None => Raise KeyError end
  | _ => Raise TypeError
  end.

(** [v[0]] *)
Definition subscript0 (v : json) : res json :=
  match v with
  | JArr l => match l with x :: _ => Ok x | [] => Raise IndexError end
  | JStr s => match s with c :: _ => Ok (JStr [c]) | [] => Raise IndexError end
  | JObj _ => Raise KeyError    (* keys of a parsed object are strings *)
  | _ => Raise TypeError
  end.

(** [v.get(k, dflt)] *)
Definition get_default (v : json) (k : pystr) (dflt : json) : res json :=
  match v with
  | JObj kvs => Ok (match dict_get k kvs with Some x => x | None => dflt end)
  | _ => Raise AttributeError
  end.

(** [k in v] with a string literal [k] *)
Definition contains (k : pystr) (v : json) : res bool :=
  match v with
  | JObj kvs => Ok (match dict_get k kvs with Some _ => true | None => false end)
  | JArr l => Ok (existsb (fun x => eq_str x k) l)
  | JStr s => Ok (str_contains k s)
  | _ => Raise TypeError
  end.

(** [iter(v)] run to the end *)
Definition py_iter (v : json) : res (list json) :=
  match v with
  | JArr l => Ok l
  | JStr s => Ok (List.map (fun c => JStr [c]) s)
  | JObj kvs => Ok (List.map (fun kv => JStr (fst kv)) kvs)
  | _ => Raise TypeError
  end.

(** ** The outside world *)

Inductive http_method := GET | POST.

(** A call of [requests.get] or [requests.post]. *)
Record request := {
  meth : http_method;
  url : pystr;
  req_headers : list (pystr * pystr);
  req_json : option json;
  req_stream : bool;
  timeout : Z
}.

(** What the code reads of a [requests.Response]. *)
Record response := {
  status_code : Z;
  http_error : pystr;             (* str() of the HTTPError of raise_for_status *)
  text : pystr;                   (* the body, for response.json() *)
  lines : list (list byte);       (* what response.iter_lines() produces *)
  iter_error : option pystr       (* a transport failure after the last line *)
}.

Inductive net_result :=
| NetFail (msg : pystr)           (* the call raises a RequestException *)
| NetResp (r : response).

Record world := {
  fs : pystr -> option (list byte);   (* readable files and their bytes *)
  net : request -> net_result
}.

(** [response.raise_for_status()] *)
Definition raise_for_status (r : response) : res unit :=
  if ((400 <=? status_code r) && (status_code r <? 600))%Z
  then Raise (RequestException (http_error r))
  else Ok tt.

(** ** The client *)

Definition Ollama : pystr := py "Ollama".
Definition LM_Studio : pystr := py "LM Studio".
Definition Koboldcpp : pystr := py "Koboldcpp".

Record APIClient := {
  provider : pystr;
  base_url : pystr;
  api_endpoint : pystr;
  models_endpoint : pystr;
  unload_endpoint : option pystr      (* set for Ollama only *)
}.

(** [self.provider in ("LM Studio", "Koboldcpp")] *)
Definition openai_style (p : pystr) : bool :=
  str_eqb p LM_Studio || str_eqb p Koboldcpp.

Definition __init__ (provider base_url : pystr) : APIClient :=
  let base := rstrip_slash base_url in
  if openai_style provider then
    {| provider := provider; base_url := base;
       api_endpoint := base ++ py "/v1/chat/completions";
       models_endpoint := base ++ py "/v1/models";
       unload_endpoint := None |}
  else
    {| provider := provider; base_url := base;
       api_endpoint := base ++ py "/api/chat";
       models_endpoint := base ++ py "/api/tags";
       unload_endpoint := Some (base ++ py "/api/unload") |}.

Definition nl : pystr := [10].

(** The two in-band error texts of [generate_chat_response]. *)
Definition connection_error_text (e : pystr) : pystr :=
  py "--- " ++ nl ++ py "**API Connection Error:**" ++ nl ++ nl
  ++ py "`" ++ e ++ py "`".

Definition decode_error_text (e raw : pystr) : pystr :=
  py "--- " ++ nl
  ++ py "**API Error: Failed to decode the server's response.**" ++ nl ++ nl
  ++ py "**Python Error:** `" ++ e ++ py "`" ++ nl ++ nl
  ++ py "**Full raw response from server:**" ++ nl ++ nl
  ++ py "```" ++ nl
  ++ (match raw with [] => py "Response was empty." | _ => raw end)
  ++ nl ++ py "```".

(** [_encode_image(image_path)] *)
Definition _encode_image (w : world) (image_path : pystr) : res pystr :=
  match fs w image_path with
  | Some bs => Ok (b64encode (List.map byte_val bs))
  | None => Raise (OSError image_path)
  end.

(** The caller's message dictionaries live in a store; [messages] is the
    list of their locations, so that a write through [messages[-1]] is
    seen by everyone who holds the same dictionary. *)
Definition deref (h : gmap nat dict) (l : nat) : dict :=
  match h !! l with
  | Some d => d
  | None => []
  end.

Definition text_part (content : json) : json :=
  JObj [(py "type", JStr (py "text")); (py "text", content)].

Definition image_part (b64_img : pystr) : json :=
  JObj [(py "type", JStr (py "image_url"));
        (py "image_url",
         JObj [(py "url", JStr (py "data:image/jpeg;base64," ++ b64_img))])].

(** Lines 59-71: the image attachment, which writes into the last
    message.  An exception leaves the store as it was. *)
Definition attach_images (w : world) (c : APIClient) (h : gmap nat dict)
    (messages : list nat) (images : option (list pystr))
  : res (gmap nat dict) :=
  match images with
  | Some ((_ :: _) as imgs) =>
    match last messages with
    | None => Ok h
    | Some l =>
      let last_message := deref h l in
      let! role := subscript (JObj last_message) (py "role") in
      if eq_str role (py "user") then
        if openai_style (provider c) then
          let! content := subscript (JObj last_message) (py "content") in
          let! b64s := mapM (_encode_image w) imgs in
          Ok (<[l := dict_set (py "content")
                       (JArr (text_part content :: List.map image_part b64s))
                       last_message]> h)
        else
          let! b64s := mapM (_encode_image w) imgs in
          Ok (<[l := dict_set (py "images") (JArr (List.map JStr b64s))
                       last_message]> h)
      else Ok h
    end
  | _ => Ok h
  end.

Definition chat_payload (h : gmap nat dict) (model : pystr)
    (messages : list nat) (stream : bool) : json :=
  JObj [(py "model", JStr model);
        (py "messages", JArr (List.map (fun l => JObj (deref h l)) messages));
        (py "stream", JBool stream)].

Definition chat_request (c : APIClient) (payload : json) : request :=
  {| meth := POST; url := api_endpoint c;
     req_headers := [(py "Content-Type", py "application/json")];
     req_json := Some payload; req_stream := true; timeout := 300 |}.

Definition models_request (c : APIClient) : request :=
  {| meth := GET; url := models_endpoint c; req_headers := [];
     req_json := None; req_stream := false; timeout := 10 |}.

Definition unload_request (endpoint model_name : pystr) : request :=
  {| meth := POST; url := endpoint; req_headers := [];
     req_json := Some (JObj [(py "name", JStr model_name)]);
     req_stream := false; timeout := 20 |}.

(** [chunk['choices'][0]['delta'].get('content', '')] *)
Definition delta_content (chunk : json) : res json :=
  let! choices := subscript chunk (py "choices") in
  let! first := subscript0 choices in
  let! delta := subscript first (py "delta") in
  get_default delta (py "content") (JStr []).

(** [chunk['message'].get('content', '')] *)
Definition message_content (chunk : json) : res json :=
  let! message := subscript chunk (py "message") in
  get_default message (py "content") (JStr []).

(** [chunk.get('message', {}).get('content', '')] *)
Definition fallback_content (chunk : json) : res json :=
  let! message := get_default chunk (py "message") (JObj []) in
  get_default message (py "content") (JStr []).

(** What one line of the response makes the loop do. *)
Inductive action :=
| Continue
| Yield (v : json)
| Break
| Throw (e : exn).

(** [if content: yield content] *)
Definition emit (r : res json) : action :=
  match r with
  | Ok content => if truthy content then Yield content else Continue
  | Raise e => Throw e
  end.

(** [decoded_line[6:].strip()] *)
Definition sse_payload (decoded_line : pystr) : pystr :=
  strip (List.skipn 6 decoded_line).

(** How the loop over [response.iter_lines()] stops. *)
Inductive loop_end :=
| Exhausted
| Broke
| Raised (e : exn).

(** The loop over the lines; it threads [raw_response_for_debugging]. *)
Fixpoint iter_lines (handle : pystr -> action) (raw : pystr)
    (ls : list (list byte)) : list json * pystr * loop_end :=
  match ls with
  | [] => ([], raw, Exhausted)
  | line :: rest =>
    match line with
    | [] => iter_lines handle raw rest
    | _ =>
      match decode line with
      | None => ([], raw, Raised UnicodeDecodeError)
      | Some decoded_line =>
        let raw' := raw ++ decoded_line ++ nl in
        match handle decoded_line with
        | Continue => iter_lines handle raw' rest
        | Yield v =>
          let '(ys, r, e) := iter_lines handle raw' rest in (v :: ys, r, e)
        | Break => ([], raw', Broke)
        | Throw e => ([], raw', Raised e)
        end
      end
    end
  end.

(** [iter_lines()] raising once the lines it had are used up. *)
Definition stream_failure (it : option pystr)
    (out : list json * pystr * loop_end) : list json * pystr * loop_end :=
  let '(ys, raw, e) := out in
  match e, it with
  | Exhausted, Some msg => (ys, raw, Raised (RequestException msg))
  | _, _ => (ys, raw, e)
  end.

(** A generator consumed to its end. *)
Record run := {
  store_after : gmap nat dict;
  fragments : list json;
  escaped : option exn;             (* the exception that leaves the generator *)
  requests_made : list request
}.

(** What [json.loads] does with a text: it returns a value, or raises
    [JSONDecodeError], or, on input that is too deeply nested or holds
    too long an integer literal, [RecursionError] or [ValueError]. *)
Inductive json_result :=
| Parsed (v : json)
| DecodeError (msg : pystr)
| TooDeep
| TooLong.

Section Client.

(** [json.loads] and [str.lower] of the Python library. *)
Variable json_loads : pystr -> json_result.
Variable str_lower : pystr -> pystr.

Definition loads (s : pystr) : res json :=
  match json_loads s with
  | Parsed v => Ok v
  | DecodeError msg => Raise (JSONDecodeError msg)
  | TooDeep => Raise RecursionError
  | TooLong => Raise ValueError
  end.

(** [response.json()]: a body that is not JSON raises
    [requests.exceptions.JSONDecodeError], a [RequestException]; the
    other exceptions of the parser pass through as they are. *)
Definition response_json (r : response) : res json :=
  match json_loads (text r) with
  | Parsed v => Ok v
  | DecodeError msg => Raise (RequestException msg)
  | TooDeep => Raise RecursionError
  | TooLong => Raise ValueError
  end.

(** *** get_available_models *)

(** ['owned_by' in m and m['owned_by'] == 'koboldcpp'] *)
Definition owned_by_koboldcpp (m : json) : res bool :=
  let! has := contains (py "owned_by") m in
  if has then
    let! o := subscript m (py "owned_by") in Ok (eq_str o (py "koboldcpp"))
  else Ok false.

(** [any(f(m) for m in l)] *)
Fixpoint py_any (f : json -> res bool) (l : list json) : res bool :=
  match l with
  | [] => Ok false
  | m :: l' => let! b := f m in if b then Ok true else py_any f l'
  end.

(** [model.get('owned_by', '').lower()] *)
Definition owner_lower (model : json) : res pystr :=
  let! o := get_default model (py "owned_by") (JStr []) in
  match o with
  | JStr s => Ok (str_lower s)
  | _ => Raise AttributeError
  end.

(** [[model['id'] for model in l if keep(model)]] *)
Fixpoint ids_where (keep : json -> res bool) (l : list json) : res (list json) :=
  match l with
  | [] => Ok []
  | model :: l' =>
    let! k := keep model in
    if k then
      let! i := subscript model (py "id") in
      let! r := ids_where keep l' in Ok (i :: r)
    else ids_where keep l'
  end.

Definition not_koboldcpp (model : json) : res bool :=
  let! o := owner_lower model in Ok (negb (str_eqb o (py "koboldcpp"))).

Definition koboldcpp_or_untagged (model : json) : res bool :=
  let! o := owner_lower model in
  if str_eqb o (py "koboldcpp") then Ok true
  else let! has := contains (py "owned_by") model in Ok (negb has).

(** [data.get('data', [])], iterated *)
Definition data_entries (data : json) : res (list json) :=
  let! d := get_default data (py "data") (JArr []) in py_iter d.

(** Lines 30-32 and 37-40: the same code for LM Studio and Ollama. *)
Definition models_unless_koboldcpp (data : json) : res (list json) :=
  let! obj := get_default data (py "object") JNull in
  let! wrong_backend :=
    if eq_str obj (py "list")
    then let! l := data_entries data in py_any owned_by_koboldcpp l
    else Ok false in
  if wrong_backend then Ok []
  else let! l := data_entries data in ids_where not_koboldcpp l.

Definition select_models (p : pystr) (data : json) : res (list json) :=
  if str_eqb p LM_Studio then models_unless_koboldcpp data
  else if str_eqb p Koboldcpp then
    let! l := data_entries data in ids_where koboldcpp_or_untagged l
  else if str_eqb p Ollama then models_unless_koboldcpp data
  else Ok [].

(** [except requests.exceptions.RequestException: return []] *)
Definition or_empty (r : res (list json)) : res (list json) :=
  match r with
  | Raise (RequestException _) => Ok []
  | _ => r
  end.

Definition get_available_models (w : world) (c : APIClient)
  : res (list json) * list request :=
  let req := models_request c in
  (or_empty
     match net w req with
     | NetFail msg => Raise (RequestException msg)
     | NetResp r =>
       let! _ := raise_for_status r in
       let! data := response_json r in
       select_models (provider c) data
     end,
   [req]).

(** *** generate_chat_response *)

(** One line of the Koboldcpp loop (lines 86-101); [except Exception:
    continue] swallows whatever the parsing raises. *)
Definition kobold_line (decoded_line : pystr) : action :=
  if startswith (py "data: ") decoded_line then
    let json_str := sse_payload decoded_line in
    if str_eqb json_str (py "[DONE]") then Break
    else match json_str with
         | [] => Continue
         | _ =>
           match emit (let! chunk := loads json_str in delta_content chunk) with
           | Throw _ => Continue
           | a => a
           end
         end
  else Continue.

(** One line of the Ollama / LM Studio loop (lines 104-124). *)
Definition plain_line (p : pystr) (decoded_line : pystr) : action :=
  if startswith (py "data: ") decoded_line then
    let json_str := sse_payload decoded_line in
    if str_eqb json_str (py "[DONE]") then Break
    else match json_str with
         | [] => Continue
         | _ =>
           emit (let! chunk := loads json_str in
                 if str_eqb p LM_Studio then delta_content chunk
                 else message_content chunk)
         end
  else if has_brace decoded_line then
    emit (let! chunk := loads decoded_line in fallback_content chunk)
  else Continue.

Definition line_handler (p : pystr) : pystr -> action :=
  if str_eqb p Koboldcpp then kobold_line else plain_line p.

(** The body of the [with] block: status check, then the loop; a
    transport failure of the stream shows once the lines are used up. *)
Definition consume (p : pystr) (r : response) : list json * pystr * loop_end :=
  match raise_for_status r with
  | Raise e => ([], [], Raised e)
  | Ok _ => stream_failure (iter_error r) (iter_lines (line_handler p) [] (lines r))
  end.

(** The two [except] clauses of lines 125-132. *)
Definition handlers (out : list json * pystr * loop_end) : list json * option exn :=
  let '(ys, raw, e) := out in
  match e with
  | Raised (RequestException msg) => (ys ++ [JStr (connection_error_text msg)], None)
  | Raised (JSONDecodeError msg) => (ys ++ [JStr (decode_error_text msg raw)], None)
  | Raised e' => (ys, Some e')
  | _ => (ys, None)
  end.

(** The generator, iterated until it stops.  (Calling the function only
    creates the generator; its body runs when the caller iterates.) *)
Definition generate_chat_response (w : world) (c : APIClient) (h : gmap nat dict)
    (model : pystr) (messages : list nat) (images : option (list pystr))
    (stream : bool) : run :=
  match attach_images w c h messages images with
  | Raise e =>
    {| store_after := h; fragments := []; escaped := Some e; requests_made := [] |}
  | Ok h' =>
    let req := chat_request c (chat_payload h' model messages stream) in
    let '(ys, e) :=
      handlers match net w req with
               | NetFail msg => ([], [], Raised (RequestException msg))
               | NetResp r => consume (provider c) r
               end in
    {| store_after := h'; fragments := ys; escaped := e; requests_made := [req] |}
  end.

(** *** unload_model *)

Definition unload_model (w : world) (c : APIClient) (model_name : pystr)
  : res dict * list request :=
  if negb (str_eqb (provider c) Ollama) then
    (Ok [(py "status", JStr (py "Unsupported for LM Studio and Koboldcpp"))], [])
  else
    match unload_endpoint c with
    | None => (Raise AttributeError, [])
    | Some endpoint =>
      let req := unload_request endpoint model_name in
      (match (match net w req with
              | NetFail msg => Raise (RequestException msg)
              | NetResp r => raise_for_status r
              end) with
       | Ok _ =>
         Ok [(py "status", JStr (py "success"));
             (py "message", JStr (py "'" ++ model_name ++ py "' unloaded."))]
       | Raise (RequestException msg) =>
         Ok [(py "status", JStr (py "error")); (py "message", JStr msg)]
       | Raise e => Raise e
       end, [req])
    end.

End Client.

(** ** A reference instance of the library functions

    Used to run the model on concrete responses.  [json_loads_ref] reads
    the JSON subset those responses use: objects, arrays, strings with the
    one-letter escapes, integers, [true], [false], [null].  Anything else
    (fractions, exponents, [\u] escapes) is reported as a decode error. *)

Definition is_json_ws (c : N) : bool :=
  (c =? 32) || (c =? 9) || (c =? 10) || (c =? 13).

Definition skip_ws (s : pystr) : pystr := lstrip_by is_json_ws s.

Definition is_digit (c : N) : bool := (48 <=? c) && (c <=? 57).

Definition unescape (c : N) : option N :=
  if (c =? 34) || (c =? 92) || (c =? 47) then Some c
  else if c =? 98 then Some 8
  else if c =? 102 then Some 12
  else if c =? 110 then Some 10
  else if c =? 114 then Some 13
  else if c =? 116 then Some 9
  else None.

(** The rest of a string literal after its opening quote. *)
Fixpoint parse_string (s : pystr) : option (pystr * pystr) :=
  match s with
  | [] => None
  | c :: rest =>
    if c =? 34 then Some ([], rest)
    else if c =? 92 then
      match rest with
      | e :: rest' =>
        match unescape e, parse_string rest' with
        | Some u, Some (str, r) => Some (u :: str, r)
        | _, _ => None
        end
      | [] => None
      end
    else if c <? 32 then None
    else match parse_string rest with
         | Some (str, r) => Some (c :: str, r)
         | None => None
         end
  end.

Fixpoint parse_digits (acc : Z) (s : pystr) : Z * pystr :=
  match s with
  | c :: rest =>
    if is_digit c then parse_digits (10 * acc + Z.of_N (c - 48))%Z rest
    else (acc, s)
  | [] => (acc, [])
  end.

(** An integer literal: no leading zero, no fraction, no exponent. *)
Definition parse_int (s : pystr) : option (Z * pystr) :=
  match s with
  | c :: rest =>
    if is_digit c then
      let '(z, r) := parse_digits 0 s in
      let leading_zero := (c =? 48) && match rest with d :: _ => is_digit d | [] => false end in
      let more := match r with d :: _ => (d =? 46) || (d =? 101) || (d =? 69) | [] => false end in
      if leading_zero || more then None else Some (z, r)
    else None
  | [] => None
  end.

Fixpoint parse_value (fuel : nat) (s : pystr) {struct fuel} : option (json * pystr) :=
  match fuel with
  | O => None
  | S fuel' =>
    match skip_ws s with
    | [] => None
    | c :: rest =>
      if c =? 123 then
        match skip_ws rest with
        | d :: rest' => if d =? 125 then Some (JObj [], rest')
                        else parse_members fuel' (skip_ws rest) []
        | [] => None
        end
      else if c =? 91 then
        match skip_ws rest with
        | d :: rest' => if d =? 93 then Some (JArr [], rest')
                        else parse_elements fuel' rest []
        | [] => None
        end
      else if c =? 34 then
        match parse_string rest with
        | Some (str, r) => Some (JStr str, r)
        | None => None
        end
      else if c =? 45 then
        match parse_int rest with
        | Some (z, r) => Some (JInt (- z), r)
        | None => None
        end
      else if is_digit c then
        match parse_int (c :: rest) with
        | Some (z, r) => Some (JInt z, r)
        | None => None
        end
      else if startswith (py "true") (c :: rest) then Some (JBool true, List.skipn 3 rest)
      else if startswith (py "false") (c :: rest) then Some (JBool false, List.skipn 4 rest)
      else if startswith (py "null") (c :: rest) then Some (JNull, List.skipn 3 rest)
      else None
    end
  end
with parse_elements (fuel : nat) (s : pystr) (acc : list json) {struct fuel}
  : option (json * pystr) :=
  match fuel with
  | O => None
  | S fuel' =>
    match parse_value fuel' s with
    | Some (v, r) =>
      match skip_ws r with
      | d :: r' =>
        if d =? 44 then parse_elements fuel' r' (acc ++ [v])
        else if d =? 93 then Some (JArr (acc ++ [v]), r')
        else None
      | [] => None
      end
    | None => None
    end
  end
with parse_members (fuel : nat) (s : pystr) (acc : dict) {struct fuel}
  : option (json * pystr) :=
  match fuel with
  | O => None
  | S fuel' =>
    match s with
    | q :: s' =>
      if q =? 34 then
        match parse_string s' with
        | Some (k, r) =>
          match skip_ws r with
          | colon :: r' =>
            if colon =? 58 then
              match parse_value fuel' r' with
              | Some (v, r'') =>
                match skip_ws r'' with
                | d :: r3 =>
                  if d =? 44 then parse_members fuel' (skip_ws r3) (dict_set k v acc)
                  else if d =? 125 then Some (JObj (dict_set k v acc), r3)
                  else None
                | [] => None
                end
              | None => None
              end
            else None
          | [] => None
          end
        | None => None
        end
      else None
    | [] => None
    end
  end.

Definition json_loads_ref (s : pystr) : json_result :=
  match parse_value (2 * List.length s + 2) s with
  | Some (v, rest) =>
    match skip_ws rest with
    | [] => Parsed v
    | _ => DecodeError (py "Extra data")
    end
  | None => DecodeError (py "Expecting value")
  end.

(** [str.lower] on ASCII text. *)
Definition ascii_lower (s : pystr) : pystr :=
  List.map (fun c => if (65 <=? c) && (c <=? 90) then c + 32 else c) s.

Definition no_files : pystr -> option (list byte) := fun _ => None.

(** A server that answers every request with status 200 and [r]. *)
Definition serving (r : response) : world :=
  {| fs := no_files; net := fun _ => NetResp r |}.

(** JSON text is written with ['] where the text has the double quote. *)
Definition js (s : string) : pystr :=
  List.map (fun c => if c =? 39 then 34 else c) (py s).

Definition js_bytes (s : string) : list byte :=
  List.map (fun b => if Byte.eqb b x27 then x22 else b) (bytes_of s).

Definition ok_body (body : pystr) : response :=
  {| status_code := 200; http_error := []; text := body; lines := [];
     iter_error := None |}.

Definition ok_stream (ls : list (list byte)) : response :=
  {| status_code := 200; http_error := []; text := []; lines := ls;
     iter_error := None |}.

Definition local (p : pystr) : APIClient := __init__ p (py "http://localhost:11434").

(** Everything received so far, as [raw_response_for_debugging] holds it. *)
Definition transcript (ls : list (list byte)) : pystr :=
  List.flat_map
    (fun line => match line with
                 | [] => []
                 | _ => match decode line with Some d => d ++ nl | None => [] end
                 end) ls.

(** ** Vocabulary of the properties *)

Definition nonempty (s : pystr) : bool :=
  match s with [] => false | _ => true end.

(** The chunk has the shape the provider streams and carries [word]:
    [choices[0].delta.content] for LM Studio and Koboldcpp,
    [message.content] otherwise. *)
Definition carries_content (p : pystr) (chunk : json) (word : pystr) : Prop :=
  if openai_style p then
    exists kvs c0 others delta,
      chunk = JObj kvs /\
      dict_get (py "choices") kvs = Some (JArr (JObj c0 :: others)) /\
      dict_get (py "delta") c0 = Some (JObj delta) /\
      dict_get (py "content") delta = Some (JStr word)
  else
    exists kvs message,
      chunk = JObj kvs /\
      dict_get (py "message") kvs = Some (JObj message) /\
      dict_get (py "content") message = Some (JStr word).

(** A well-formed SSE line for provider [p] carrying [word]: UTF-8 text
    with the [data: ] prefix whose payload is the JSON of such a chunk. *)
Definition sse_line (json_loads : pystr -> json_result) (p : pystr)
    (line : list byte) (word : pystr) : Prop :=
  exists decoded_line chunk,
    decode line = Some decoded_line /\
    startswith (py "data: ") decoded_line = true /\
    json_loads (sse_payload decoded_line) = Parsed chunk /\
    carries_content p chunk word.

(** The SSE line whose payload is the literal [[DONE]]. *)
Definition done_line (line : list byte) : Prop :=
  exists decoded_line,
    decode line = Some decoded_line /\
    startswith (py "data: ") decoded_line = true /\
    sse_payload decoded_line = py "[DONE]".


(** An SSE line, as text, whose payload [json.loads] does not accept,
    or accepts as a value without the [choices[0].delta] shape. *)
Definition malformed_sse_line (json_loads : pystr -> json_result)
    (line : list byte) : Prop :=
  exists decoded_line,
    decode line = Some decoded_line /\
    startswith (py "data: ") decoded_line = true /\
    sse_payload decoded_line <> py "[DONE]" /\
    ((forall chunk, json_loads (sse_payload decoded_line) <> Parsed chunk)
     \/
     (exists chunk e, json_loads (sse_payload decoded_line) = Parsed chunk /\
                      delta_content chunk = Raise e)).

(** [needle] occurs in [s]. *)
Definition occurs_in (needle s : pystr) : Prop :=
  exists before after, s = before ++ needle ++ after.

(** The response of the server to [req], once its status was accepted. *)
Definition delivered (w : world) (req : request) (r : response) : Prop :=
  net w req = NetResp r /\ raise_for_status r = Ok tt.

(** The [id] of an entry of a model listing. *)
Definition entry_id (entry : json) : json :=
  match entry with
  | JObj e => default JNull (dict_get (py "id") e)
  | _ => JNull
  end.

(** The entry has no [owned_by] field. *)
Definition untagged (entry : json) : bool :=
  match entry with
  | JObj e => match dict_get (py "owned_by") e with None => true | Some _ => false end
  | _ => false
  end.

(** A well-formed entry that Koboldcpp does not own: an object with an
    [id] whose [owned_by], when present, is a string that does not
    lower-case to [koboldcpp]. *)
Definition foreign_entry (str_lower : pystr -> pystr) (entry : json) : Prop :=
  exists e i,
    entry = JObj e /\ dict_get (py "id") e = Some i /\
    match dict_get (py "owned_by") e with
    | None => True
    | Some (JStr o) => str_lower o <> py "koboldcpp"
    | Some _ => False
    end.

(** An entry with [owned_by == "koboldcpp"]. *)
Definition koboldcpp_entry (entry : json) : Prop :=
  exists e, entry = JObj e /\
            dict_get (py "owned_by") e = Some (JStr (py "koboldcpp")).

Definition is_object (v : json) : Prop := exists e, v = JObj e.

(** The body of [r] is a JSON object whose [data] is the list [entries]. *)
Definition listing (json_loads : pystr -> json_result) (r : response)
    (kvs : dict) (entries : list json) : Prop :=
  json_loads (text r) = Parsed (JObj kvs) /\
  dict_get (py "data") kvs = Some (JArr entries).

Definition readable (w : world) (path : pystr) : Prop := fs w path <> None.

(** The base64 text of a file. *)
Definition image_data (w : world) (path : pystr) : pystr :=
  match fs w path with
  | Some bs => b64encode (List.map byte_val bs)
  | None => []
  end.

(** ** Concrete clients, servers and responses *)

Definition refusing (msg : pystr) : world :=
  {| fs := no_files; net := fun _ => NetFail msg |}.

(** The first request of a client that sends no message and no image. *)
Definition first_chat (c : APIClient) : request :=
  chat_request c (chat_payload ∅ (py "m") [] true).

Definition run_on (ls : list (list byte)) (p : pystr) : run :=
  generate_chat_response json_loads_ref (serving (ok_stream ls)) (local p)
    ∅ (py "m") [] None true.

Definition ollama_hello : list byte := js_bytes "data: {'message':{'content':'Hello'}}".
Definition ollama_world : list byte := js_bytes "data: {'message':{'content':' world'}}".
Definition delta_hello : list byte :=
  js_bytes "data: {'choices':[{'delta':{'content':'Hello'}}]}".
Definition delta_world : list byte :=
  js_bytes "data: {'choices':[{'delta':{'content':' world'}}]}".
Definition done_marker : list byte := js_bytes "data: [DONE]".
Definition truncated_json : list byte := js_bytes "data: {'message':".
Definition no_choices : list byte := js_bytes "data: {'choices':[]}".

(** A line that is not UTF-8: the prefix followed by the byte 0xFF. *)
Definition not_utf8 : list byte := bytes_of "data: " ++ [xff].

(** Two entries that Koboldcpp does not own. *)
Definition two_models : list json :=
  [JObj [(py "id", JStr (py "llama3"))];
   JObj [(py "id", JStr (py "gpt-x")); (py "owned_by", JStr (py "organization_owner"))]].

Definition two_models_body : pystr :=
  js "{'object':'list','data':[{'id':'llama3'},{'id':'gpt-x','owned_by':'organization_owner'}]}".

(** A listing with a Koboldcpp entry, with and without the [object] tag. *)
Definition mixed_models : list json :=
  [JObj [(py "id", JStr (py "a")); (py "owned_by", JStr (py "koboldcpp"))];
   JObj [(py "id", JStr (py "b"))]].

Definition mixed_tagged_body : pystr :=
  js "{'object':'list','data':[{'id':'a','owned_by':'koboldcpp'},{'id':'b'}]}".

Definition mixed_untagged_body : pystr :=
  js "{'data':[{'id':'a','owned_by':'koboldcpp'},{'id':'b'}]}".

(** Well-formed JSON whose entry has a [name] where the code reads [id]. *)
Definition nameless_body : pystr := js "{'object':'list','data':[{'name':'m'}]}".

(** One user message in the caller's store, and one image on disk. *)
Definition greeting : dict :=
  [(py "role", JStr (py "user")); (py "content", JStr (py "hi"))].

Definition one_message : gmap nat dict := {[ 0%nat := greeting ]}.

Definition with_cat : world :=
  {| fs := fun path => if str_eqb path (py "cat.png") then Some (bytes_of "Man") else None;
     net := fun _ => NetResp (ok_stream []) |}.

(** The runs the closing examples look at. *)
Definition refused_run : run :=
  generate_chat_response json_loads_ref (refusing (py "Connection refused"))
    (local Ollama) ∅ (py "m") [] None true.

Definition unreadable_run : run :=
  generate_chat_response json_loads_ref (serving (ok_stream []))
    (local Ollama) one_message (py "m") [0%nat] (Some [py "cat.png"]) true.

(** ** Vocabulary of the further properties *)

(** The exceptions that reading a parsed value by key or attribute can
    raise, and with [[0]] also [IndexError]. *)
Definition lookup_error (e : exn) : Prop :=
  e = KeyError \/ e = TypeError \/ e = AttributeError.

Definition shape_error (e : exn) : Prop := lookup_error e \/ e = IndexError.

(** An entry of a listing as the code reads it: an object with an [id]
    whose [owned_by], when present, is a string. *)
Definition model_entry (entry : json) : Prop :=
  exists e i,
    entry = JObj e /\ dict_get (py "id") e = Some i /\
    match dict_get (py "owned_by") e with
    | None => True
    | Some (JStr _) => True
    | Some _ => False
    end.

(** [model.get('owned_by', '')] of such an entry. *)
Definition owner (entry : json) : pystr :=
  match entry with
  | JObj e => match dict_get (py "owned_by") e with
              | Some (JStr o) => o
              | _ => []
              end
  | _ => []
  end.

(** A line of newline-delimited JSON, without the SSE prefix, whose
    object carries [word] as [message.content]. *)
Definition raw_json_line (json_loads : pystr -> json_result)
    (line : list byte) (word : pystr) : Prop :=
  exists decoded_line kvs message,
    decode line = Some decoded_line /\
    startswith (py "data: ") decoded_line = false /\
    has_brace decoded_line = true /\
    json_loads decoded_line = Parsed (JObj kvs) /\
    dict_get (py "message") kvs = Some (JObj message) /\
    dict_get (py "content") message = Some (JStr word).

(** A line of text without the SSE prefix. *)
Definition unprefixed_line (line : list byte) : Prop :=
  exists decoded_line,
    decode line = Some decoded_line /\
    startswith (py "data: ") decoded_line = false.

(** What the Koboldcpp loop makes of a line of text: it reads the
    [word] of a well-formed SSE line; it passes over a malformed SSE
    line and over a line without the prefix (an empty line is one). *)
Definition read_or_skipped (json_loads : pystr -> json_result)
    (line : list byte) (out : option pystr) : Prop :=
  match out with
  | Some word => sse_line json_loads Koboldcpp line word
  | None => malformed_sse_line json_loads line \/ unprefixed_line line
  end.

(** The words that were read. *)
Definition words_read (outs : list (option pystr)) : list pystr :=
  List.flat_map (fun out => match out with Some word => [word] | None => [] end) outs.

Definition is_blank (line : list byte) : bool :=
  match line with [] => true | _ => false end.

(** The request failed: in transport, or by its HTTP status. *)
Definition failed (w : world) (req : request) (msg : pystr) : Prop :=
  net w req = NetFail msg \/
  exists r, net w req = NetResp r /\
            (400 <= status_code r < 600)%Z /\ http_error r = msg.

Definition unknown_provider : pystr := py "OpenAI".

(** What the Ollama and LM Studio clients list of well-formed entries:
    nothing when the listing is tagged [list] and some owner is exactly
    [koboldcpp], otherwise the entries whose owner does not lower-case
    to [koboldcpp]. *)
Definition listed_unless_koboldcpp (str_lower : pystr -> pystr)
    (kvs : dict) (entries : list json) : list json :=
  let tagged := match dict_get (py "object") kvs with
                | Some obj => eq_str obj (py "list")
                | None => false
                end in
  if tagged && existsb (fun e => str_eqb (owner e) (py "koboldcpp")) entries
  then []
  else List.map entry_id
         (List.filter
            (fun e => negb (str_eqb (str_lower (owner e)) (py "koboldcpp")))
            entries).

(** What the Koboldcpp client lists: the entries whose owner lower-cases
    to [koboldcpp], and the entries without owner. *)
Definition listed_by_koboldcpp (str_lower : pystr -> pystr)
    (entries : list json) : list json :=
  List.map entry_id
    (List.filter
       (fun e => str_eqb (str_lower (owner e)) (py "koboldcpp") || untagged e)
       entries).

Definition mixed_case_body : pystr :=
  js "{'object':'list','data':[{'id':'a','owned_by':'KoboldCpp'},{'id':'b'}]}".

Definition mixed_case_models : list json :=
  [JObj [(py "id", JStr (py "a")); (py "owned_by", JStr (py "KoboldCpp"))];
   JObj [(py "id", JStr (py "b"))]].

(** What the loop is left with, for each answer to the chat request. *)
Definition answered (json_loads : pystr -> json_result) (p : pystr)
    (n : net_result) : list json * pystr * loop_end :=
  match n with
  | NetFail msg => ([], [], Raised (RequestException msg))
  | NetResp r => consume json_loads p r
  end.

(** More concrete responses and stores. *)
Definition ndjson_hello : list byte := js_bytes "{'message':{'content':'Hello'}}".
Definition ndjson_world : list byte := js_bytes "{'message':{'content':' world'}}".
Definition no_message : list byte := js_bytes "data: {'done':true}".

Definition broken_after_hello : response :=
  {| status_code := 200; http_error := []; text := [];
     lines := [ollama_hello]; iter_error := Some (py "Connection broken") |}.

Definition instructions : dict :=
  [(py "role", JStr (py "system")); (py "content", JStr (py "Be brief."))].

Definition two_messages : gmap nat dict :=
  {[ 0%nat := instructions; 1%nat := greeting ]}.

Definition without_role : dict := [(py "content", JStr (py "hi"))].

(** ** Basic facts *)

Lemma str_eqb_refl (a : pystr) : str_eqb a a = true.
Proof.
  induction a as [|x a IH]; simpl; [reflexivity|].
  rewrite N.eqb_refl. exact IH.
Qed.

Lemma str_eqb_eq (a b : pystr) : str_eqb a b = true <-> a = b.
Proof.
  split.
  - revert b. induction a as [|x a IH]; intros [|y b]; simpl; try discriminate.
    + reflexivity.
    + intros H. apply andb_true_iff in H as [Hx Hab].
      apply N.eqb_eq in Hx. rewrite (IH _ Hab). congruence.
  - intros ->. apply str_eqb_refl.
Qed.

Lemma str_eqb_neq (a b : pystr) : str_eqb a b = false <-> a <> b.
Proof.
  split.
  - intros H Heq. apply str_eqb_eq in Heq. congruence.
  - intros H. destruct (str_eqb a b) eqn:E; [|reflexivity].
    apply str_eqb_eq in E. contradiction.
Qed.

Lemma dict_get_set_eq (k : pystr) (v : json) (d : dict) :
  dict_get k (dict_set k v d) = Some v.
Proof.
  induction d as [|[k' v'] d IH]; simpl.
  - rewrite str_eqb_refl. reflexivity.
  - destruct (str_eqb k k') eqn:E; simpl; rewrite E; [reflexivity | exact IH].
Qed.

Lemma dict_get_set_ne (k k0 : pystr) (v : json) (d : dict) :
  k0 <> k -> dict_get k0 (dict_set k v d) = dict_get k0 d.
Proof.
  intros Hne. induction d as [|[k' v'] d IH]; simpl.
  - apply str_eqb_neq in Hne. rewrite Hne. reflexivity.
  - destruct (str_eqb k k') eqn:E; simpl.
    + apply str_eqb_eq in E. subst k'.
      apply str_eqb_neq in Hne. rewrite Hne. reflexivity.
    + destruct (str_eqb k0 k'); [reflexivity | exact IH].
Qed.

(** The loop over a concatenation: the second part runs only when the
    first was used up. *)
Lemma iter_lines_app (f : pystr -> action) (a b : list (list byte)) (raw : pystr) :
  iter_lines f raw (a ++ b) =
  match iter_lines f raw a with
  | (ys, raw', Exhausted) =>
    let '(ys', raw'', e) := iter_lines f raw' b in (ys ++ ys', raw'', e)
  | other => other
  end.
Proof.
  revert raw. induction a as [|line a IH]; intros raw; simpl.
  - destruct (iter_lines f raw b) as [[ys r] e]. reflexivity.
  - destruct line as [|b0 line]; [apply IH|].
    destruct (decode (b0 :: line)) as [d|]; [|reflexivity].
    destruct (f d); try reflexivity.
    + apply IH.
    + rewrite IH.
      destruct (iter_lines f (raw ++ d ++ nl) a) as [[ys r] e].
      destruct e; try reflexivity.
      destruct (iter_lines f r b) as [[ys' r'] e']. reflexivity.
Qed.


Lemma decode_nil : decode [] = Some [].
Proof. reflexivity. Qed.

Lemma startswith_data_nonempty (line : list byte) (d : pystr) :
  decode line = Some d -> startswith (py "data: ") d = true -> line <> [].
Proof.
  intros Hd Hs ->. rewrite decode_nil in Hd. injection Hd as <-. discriminate.
Qed.

(** ** The run of the generator, seen from its single request *)

Section Runs.

Variable json_loads : pystr -> json_result.
Variables (w : world) (c : APIClient) (h : gmap nat dict) (model : pystr)
          (messages : list nat) (images : option (list pystr)) (stream : bool).

Let R := generate_chat_response json_loads w c h model messages images stream.

Lemma run_response (req : request) (r : response) :
  In req (requests_made R) -> net w req = NetResp r ->
  (fragments R, escaped R) = handlers (consume json_loads (provider c) r).
Proof.
  subst R. unfold generate_chat_response.
  destruct (attach_images w c h messages images) as [h'|e]; simpl.
  - destruct (handlers _) as [ys e] eqn:E. simpl.
    intros [<-|[]] Hnet. rewrite Hnet in E. congruence.
  - intros [].
Qed.

Lemma run_failure (req : request) (msg : pystr) :
  In req (requests_made R) -> net w req = NetFail msg ->
  fragments R = [JStr (connection_error_text msg)] /\ escaped R = None.
Proof.
  subst R. unfold generate_chat_response.
  destruct (attach_images w c h messages images) as [h'|e]; simpl.
  - destruct (handlers _) as [ys e] eqn:E. simpl.
    intros [<-|[]] Hnet. rewrite Hnet in E. simpl in E.
    injection E as <- <-. split; reflexivity.
  - intros [].
Qed.

Lemma consume_delivered (r : response) :
  raise_for_status r = Ok tt ->
  consume json_loads (provider c) r =
  stream_failure (iter_error r)
    (iter_lines (line_handler json_loads (provider c)) [] (lines r)).
Proof. intros H. unfold consume. rewrite H. reflexivity. Qed.

End Runs.

(** ** Streaming: well-formed lines *)

Section Streaming.

Variable json_loads : pystr -> json_result.

Lemma delta_content_carried (p : pystr) (chunk : json) (word : pystr) :
  openai_style p = true -> carries_content p chunk word ->
  delta_content chunk = Ok (JStr word).
Proof.
  unfold carries_content. intros ->.
  intros (kvs & c0 & others & delta & -> & Hch & Hde & Hco).
  unfold delta_content. simpl. rewrite Hch. simpl. rewrite Hde. simpl.
  rewrite Hco. reflexivity.
Qed.

Lemma message_content_carried (p : pystr) (chunk : json) (word : pystr) :
  openai_style p = false -> carries_content p chunk word ->
  message_content chunk = Ok (JStr word).
Proof.
  unfold carries_content. intros ->.
  intros (kvs & message & -> & Hme & Hco).
  unfold message_content. simpl. rewrite Hme. simpl. rewrite Hco. reflexivity.
Qed.

Lemma emit_word (word : pystr) :
  emit (Ok (JStr word)) = if nonempty word then Yield (JStr word) else Continue.
Proof. destruct word; reflexivity. Qed.

Hypothesis loads_done : forall v, json_loads (py "[DONE]") <> Parsed v.
Hypothesis loads_empty : forall v, json_loads [] <> Parsed v.

Lemma line_handler_sse (p decoded_line : pystr) (chunk : json) (word : pystr) :
  startswith (py "data: ") decoded_line = true ->
  json_loads (sse_payload decoded_line) = Parsed chunk ->
  carries_content p chunk word ->
  line_handler json_loads p decoded_line =
  if nonempty word then Yield (JStr word) else Continue.
Proof.
  intros Hs Hl Hc.
  assert (Hnd : str_eqb (sse_payload decoded_line) (py "[DONE]") = false).
  { apply str_eqb_neq. intros E. rewrite E in Hl. exact (loads_done _ Hl). }
  assert (Hne : sse_payload decoded_line <> []).
  { intros E. rewrite E in Hl. exact (loads_empty _ Hl). }
  unfold line_handler.
  destruct (str_eqb p Koboldcpp) eqn:Ek.
  - apply str_eqb_eq in Ek. subst p.
    unfold kobold_line. rewrite Hs, Hnd.
    destruct (sse_payload decoded_line) as [|x js] eqn:Ep; [contradiction|].
    unfold loads. rewrite Hl. simpl.
    rewrite (delta_content_carried Koboldcpp chunk word eq_refl Hc).
    rewrite emit_word. destruct (nonempty word); reflexivity.
  - unfold plain_line. rewrite Hs, Hnd.
    destruct (sse_payload decoded_line) as [|x js] eqn:Ep; [contradiction|].
    unfold loads. rewrite Hl. simpl.
    destruct (str_eqb p LM_Studio) eqn:El.
    + rewrite (delta_content_carried p chunk word); [apply emit_word| |exact Hc].
      unfold openai_style. rewrite El. reflexivity.
    + rewrite (message_content_carried p chunk word); [apply emit_word| |exact Hc].
      unfold openai_style. rewrite El, Ek. reflexivity.
Qed.

Lemma iter_lines_sse (p : pystr) (ls : list (list byte)) (words : list pystr) :
  Forall2 (sse_line json_loads p) ls words ->
  forall raw,
    iter_lines (line_handler json_loads p) raw ls =
    (List.map JStr (List.filter nonempty words), raw ++ transcript ls, Exhausted).
Proof.
  induction 1 as [|line word ls words Hline Hrest IH]; intros raw; simpl.
  - rewrite app_nil_r. reflexivity.
  - destruct Hline as (d & chunk & Hd & Hs & Hl & Hc).
    pose proof (startswith_data_nonempty _ _ Hd Hs) as Hne.
    destruct line as [|b0 line]; [contradiction|].
    rewrite Hd, (line_handler_sse p d chunk word Hs Hl Hc), IH.
    rewrite <- !app_assoc.
    destruct (nonempty word); reflexivity.
Qed.

Lemma concat_filter_nonempty (words : list pystr) :
  List.concat (List.filter nonempty words) = List.concat words.
Proof.
  induction words as [|x words IH]; simpl; [reflexivity|].
  destruct x; simpl; rewrite IH; reflexivity.
Qed.

(** C1. For every provider, when the response to the chat request is N
    well-formed SSE [data: ] lines, each carrying one content string in
    the provider's shape, the generator yields exactly the non-empty
    contents in line order, as strings, and ends normally; their
    concatenation is the concatenation of the per-line contents. *)
Theorem stream_concatenation
    (w : world) (c : APIClient) (h : gmap nat dict) (model : pystr)
    (messages : list nat) (images : option (list pystr)) (stream : bool)
    (req : request) (r : response) (words : list pystr) :
  let R := generate_chat_response json_loads w c h model messages images stream in
  In req (requests_made R) ->
  delivered w req r ->
  iter_error r = None ->
  Forall2 (sse_line json_loads (provider c)) (lines r) words ->
  exists frags,
    fragments R = List.map JStr frags /\ escaped R = None /\
    List.concat frags = List.concat words.
Proof.
  intros R Hreq [Hnet Hst] Hit Hlines.
  pose proof (run_response json_loads w c h model messages images stream req r
                Hreq Hnet) as Hrun.
  fold R in Hrun.
  rewrite (consume_delivered json_loads c r Hst) in Hrun.
  rewrite (iter_lines_sse _ _ _ Hlines), Hit in Hrun. simpl in Hrun.
  exists (List.filter nonempty words).
  injection Hrun as -> ->.
  repeat split. apply concat_filter_nonempty.
Qed.

End Streaming.

(** ** Streaming: end of stream, failures *)

Section StreamEnd.

Variable json_loads : pystr -> json_result.

Lemma line_handler_done (p decoded_line : pystr) :
  startswith (py "data: ") decoded_line = true ->
  sse_payload decoded_line = py "[DONE]" ->
  line_handler json_loads p decoded_line = Break.
Proof.
  intros Hs Hp. unfold line_handler.
  destruct (str_eqb p Koboldcpp); unfold kobold_line, plain_line;
    rewrite Hs, Hp, str_eqb_refl; reflexivity.
Qed.

Lemma iter_lines_cons (f : pystr -> action) (raw : pystr) (line : list byte)
    (rest : list (list byte)) (d : pystr) :
  decode line = Some d -> d <> [] ->
  iter_lines f raw (line :: rest) =
  match f d with
  | Continue => iter_lines f (raw ++ d ++ nl) rest
  | Yield v =>
    let '(ys, r, e) := iter_lines f (raw ++ d ++ nl) rest in (v :: ys, r, e)
  | Break => ([], raw ++ d ++ nl, Broke)
  | Throw e => ([], raw ++ d ++ nl, Raised e)
  end.
Proof.
  intros Hd Hne. simpl. destruct line as [|b0 line].
  - rewrite decode_nil in Hd. congruence.
  - rewrite Hd. reflexivity.
Qed.

Lemma startswith_nonempty (d : pystr) :
  startswith (py "data: ") d = true -> d <> [].
Proof. intros H ->. discriminate. Qed.

(** C4. For every provider and every response, when the loop reaches an
    SSE line whose payload is the literal [[DONE]], the generator ends
    there: its fragments are exactly those of the lines before it,
    whatever lines follow, and it ends normally. *)
Theorem done_ends_stream
    (w : world) (c : APIClient) (h : gmap nat dict) (model : pystr)
    (messages : list nat) (images : option (list pystr)) (stream : bool)
    (req : request) (r : response)
    (pre rest : list (list byte)) (done : list byte)
    (ys : list json) (raw : pystr) :
  let R := generate_chat_response json_loads w c h model messages images stream in
  In req (requests_made R) ->
  delivered w req r ->
  lines r = pre ++ done :: rest ->
  done_line done ->
  iter_lines (line_handler json_loads (provider c)) [] pre = (ys, raw, Exhausted) ->
  fragments R = ys /\ escaped R = None.
Proof.
  intros R Hreq [Hnet Hst] Hl (d & Hd & Hs & Hp) Hpre.
  pose proof (run_response json_loads w c h model messages images stream req r
                Hreq Hnet) as Hrun.
  fold R in Hrun.
  rewrite (consume_delivered json_loads c r Hst), Hl, iter_lines_app, Hpre in Hrun.
  rewrite (iter_lines_cons _ _ _ _ d Hd (startswith_nonempty d Hs)) in Hrun.
  rewrite (line_handler_done _ _ Hs Hp) in Hrun. simpl in Hrun.
  rewrite app_nil_r in Hrun. injection Hrun as -> ->. split; reflexivity.
Qed.

Lemma has_brace_nonempty (d : pystr) : has_brace d = true -> d <> [].
Proof. intros H ->. discriminate. Qed.


Lemma transcript_app (a b : list (list byte)) :
  transcript (a ++ b) = transcript a ++ transcript b.
Proof. unfold transcript. apply flat_map_app. Qed.

Lemma transcript_one (line : list byte) (d : pystr) :
  decode line = Some d -> d <> [] -> transcript [line] = d ++ nl.
Proof.
  intros Hd Hne. unfold transcript. simpl. destruct line as [|b0 line].
  - rewrite decode_nil in Hd. congruence.
  - rewrite Hd, app_nil_r. reflexivity.
Qed.

Lemma decode_error_text_raw (msg raw : pystr) :
  raw <> [] -> occurs_in raw (decode_error_text msg raw).
Proof.
  intros Hne. unfold occurs_in, decode_error_text.
  destruct raw as [|x raw]; [contradiction|].
  exists (py "--- " ++ nl
          ++ py "**API Error: Failed to decode the server's response.**" ++ nl ++ nl
          ++ py "**Python Error:** `" ++ msg ++ py "`" ++ nl ++ nl
          ++ py "**Full raw response from server:**" ++ nl ++ nl
          ++ py "```" ++ nl),
         (nl ++ py "```").
  rewrite <- !app_assoc. reflexivity.
Qed.


End StreamEnd.

(** ** Streaming: Koboldcpp skips what it cannot read *)

Section Skipping.

Variable json_loads : pystr -> json_result.

Lemma kobold_line_no_throw (d : pystr) (e : exn) :
  kobold_line json_loads d <> Throw e.
Proof.
  unfold kobold_line.
  destruct (startswith (py "data: ") d); [|discriminate].
  destruct (str_eqb (sse_payload d) (py "[DONE]")); [discriminate|].
  destruct (sse_payload d); [discriminate|].
  destruct (emit _); discriminate.
Qed.

Lemma kobold_line_malformed (line : list byte) :
  malformed_sse_line json_loads line ->
  exists d, decode line = Some d /\ d <> [] /\ kobold_line json_loads d = Continue.
Proof.
  intros (d & Hd & Hs & Hnd & Hbad). exists d.
  split; [exact Hd|]. split; [exact (startswith_nonempty d Hs)|].
  unfold kobold_line. rewrite Hs. apply str_eqb_neq in Hnd. rewrite Hnd.
  destruct (sse_payload d) as [|x js]; [reflexivity|].
  unfold loads.
  destruct Hbad as [Hno | (chunk & e & Hl & Hsh)].
  - destruct (json_loads (x :: js)) as [chunk|msg| |] eqn:Hl; try reflexivity.
    exfalso. exact (Hno chunk eq_refl).
  - rewrite Hl. simpl. rewrite Hsh. reflexivity.
Qed.

(** In the Koboldcpp loop only the decoding of a line can raise, and
    what was accumulated for debugging changes nothing. *)
Lemma iter_kobold_raw (ls : list (list byte)) (raw1 raw2 : pystr) :
  let '(ys1, _, e1) := iter_lines (kobold_line json_loads) raw1 ls in
  let '(ys2, _, e2) := iter_lines (kobold_line json_loads) raw2 ls in
  ys1 = ys2 /\ e1 = e2 /\ forall msg, e1 <> Raised (JSONDecodeError msg).
Proof.
  revert raw1 raw2. induction ls as [|line ls IH]; intros raw1 raw2; simpl.
  - repeat split; discriminate.
  - destruct line as [|b0 line]; [apply IH|].
    destruct (decode (b0 :: line)) as [d|]; [|repeat split; discriminate].
    specialize (IH (raw1 ++ d ++ nl) (raw2 ++ d ++ nl)).
    destruct (kobold_line json_loads d) eqn:Ek.
    + exact IH.
    + destruct (iter_lines _ (raw1 ++ d ++ nl) ls) as [[ys1 r1] e1].
      destruct (iter_lines _ (raw2 ++ d ++ nl) ls) as [[ys2 r2] e2].
      destruct IH as (-> & -> & Hn). repeat split. exact Hn.
    + repeat split; discriminate.
    + exfalso. exact (kobold_line_no_throw d e Ek).
Qed.

Lemma handlers_kobold (ls : list (list byte)) (raw1 raw2 : pystr) (it : option pystr) :
  handlers (stream_failure it (iter_lines (kobold_line json_loads) raw1 ls)) =
  handlers (stream_failure it (iter_lines (kobold_line json_loads) raw2 ls)).
Proof.
  pose proof (iter_kobold_raw ls raw1 raw2) as H.
  destruct (iter_lines _ raw1 ls) as [[ys1 r1] e1].
  destruct (iter_lines _ raw2 ls) as [[ys2 r2] e2].
  destruct H as (-> & -> & Hn).
  destruct e2 as [| |e]; destruct it; simpl; try reflexivity.
  all: destruct e; try reflexivity; exfalso; exact (Hn msg eq_refl).
Qed.

Lemma handlers_prefix (ys : list json) (it : option pystr)
    (out : list json * pystr * loop_end) :
  handlers (stream_failure it (let '(ys', raw, e) := out in (ys ++ ys', raw, e))) =
  let '(f, x) := handlers (stream_failure it out) in (ys ++ f, x).
Proof.
  destruct out as [[ys' raw] e].
  destruct e as [| |e]; destruct it; simpl; rewrite ?app_assoc; try reflexivity.
  all: destruct e; simpl; rewrite ?app_assoc; reflexivity.
Qed.

(** The run on a response and the run on the response without one
    malformed line yield the same fragments and end the same way. *)
Lemma koboldcpp_run_without_line
    (w w' : world) (c : APIClient) (h : gmap nat dict) (model : pystr)
    (messages : list nat) (images : option (list pystr)) (stream : bool)
    (req req' : request) (r r' : response)
    (pre rest : list (list byte)) (bad : list byte) :
  let R := generate_chat_response json_loads w c h model messages images stream in
  let R' := generate_chat_response json_loads w' c h model messages images stream in
  provider c = Koboldcpp ->
  In req (requests_made R) -> delivered w req r ->
  In req' (requests_made R') -> delivered w' req' r' ->
  iter_error r = iter_error r' ->
  lines r = pre ++ bad :: rest ->
  lines r' = pre ++ rest ->
  malformed_sse_line json_loads bad ->
  fragments R = fragments R' /\ escaped R = escaped R'.
Proof.
  intros R R' Hp Hreq [Hnet Hst] Hreq' [Hnet' Hst'] Hit Hl Hl' Hbad.
  destruct (kobold_line_malformed bad Hbad) as (d & Hd & Hne & Hskip).
  pose proof (run_response json_loads w c h model messages images stream req r
                Hreq Hnet) as Hrun.
  pose proof (run_response json_loads w' c h model messages images stream req' r'
                Hreq' Hnet') as Hrun'.
  fold R in Hrun. fold R' in Hrun'.
  rewrite (consume_delivered json_loads c r Hst), Hl in Hrun.
  rewrite (consume_delivered json_loads c r' Hst'), Hl', <- Hit in Hrun'.
  assert (Hk : line_handler json_loads (provider c) = kobold_line json_loads).
  { rewrite Hp. reflexivity. }
  rewrite Hk, iter_lines_app in Hrun. rewrite Hk, iter_lines_app in Hrun'.
  destruct (iter_lines (kobold_line json_loads) [] pre) as [[ys raw] e].
  destruct e.
  - rewrite (iter_lines_cons _ _ _ _ d Hd Hne), Hskip in Hrun.
    rewrite handlers_prefix in Hrun. rewrite handlers_prefix in Hrun'.
    rewrite (handlers_kobold rest (raw ++ d ++ nl) raw) in Hrun.
    rewrite <- Hrun' in Hrun. injection Hrun as -> ->. split; reflexivity.
  - rewrite <- Hrun' in Hrun. injection Hrun as -> ->. split; reflexivity.
  - rewrite <- Hrun' in Hrun. injection Hrun as -> ->. split; reflexivity.
Qed.

(** C7. For every provider, when the chat request fails with a
    connection error, a timeout or an HTTP error status, the generator
    yields exactly one fragment, the connection error text with its
    [API Connection Error] marker, and ends without raising. *)
Theorem connection_failure_fragment
    (w : world) (c : APIClient) (h : gmap nat dict) (model : pystr)
    (messages : list nat) (images : option (list pystr)) (stream : bool)
    (req : request) (msg : pystr) :
  let R := generate_chat_response json_loads w c h model messages images stream in
  In req (requests_made R) ->
  (net w req = NetFail msg \/
   exists r, net w req = NetResp r /\
             (400 <= status_code r < 600)%Z /\ http_error r = msg) ->
  fragments R = [JStr (connection_error_text msg)] /\
  escaped R = None /\
  occurs_in (py "API Connection Error") (connection_error_text msg).
Proof.
  intros R Hreq Hfail.
  assert (Hrun : fragments R = [JStr (connection_error_text msg)] /\ escaped R = None).
  { destruct Hfail as [Hnet | (r & Hnet & Hst & <-)].
    - exact (run_failure json_loads w c h model messages images stream req msg
               Hreq Hnet).
    - pose proof (run_response json_loads w c h model messages images stream req r
                    Hreq Hnet) as Hrun.
      fold R in Hrun. unfold consume, raise_for_status in Hrun.
      assert (Hb : ((400 <=? status_code r) && (status_code r <? 600))%Z = true).
      { apply andb_true_iff. split; [apply Z.leb_le | apply Z.ltb_lt]; lia. }
      rewrite Hb in Hrun. simpl in Hrun. injection Hrun as -> ->.
      split; reflexivity. }
  destruct Hrun as [Hf He]. split; [exact Hf|]. split; [exact He|].
  exists (py "--- " ++ nl ++ py "**"), (py ":**" ++ nl ++ nl ++ py "`" ++ msg ++ py "`").
  reflexivity.
Qed.

End Skipping.

(** ** Listing the models *)

Section Listing.

Variable json_loads : pystr -> json_result.
Variable str_lower : pystr -> pystr.

Abbreviation get_models := (get_available_models json_loads str_lower).

Lemma get_models_delivered (w : world) (c : APIClient) (r : response) (data : json) :
  delivered w (models_request c) r ->
  json_loads (text r) = Parsed data ->
  fst (get_models w c) = or_empty (select_models str_lower (provider c) data).
Proof.
  intros [Hnet Hst] Hl. unfold get_available_models. simpl.
  rewrite Hnet, Hst. simpl. unfold response_json. rewrite Hl. reflexivity.
Qed.

Lemma data_entries_listed (kvs : dict) (entries : list json) :
  dict_get (py "data") kvs = Some (JArr entries) ->
  data_entries (JObj kvs) = Ok entries.
Proof. intros H. unfold data_entries. simpl. rewrite H. reflexivity. Qed.

Lemma owned_by_koboldcpp_object (e : dict) :
  owned_by_koboldcpp (JObj e) =
  Ok (match dict_get (py "owned_by") e with
      | Some o => eq_str o (py "koboldcpp")
      | None => false
      end).
Proof.
  unfold owned_by_koboldcpp. simpl.
  destruct (dict_get (py "owned_by") e); reflexivity.
Qed.

Section Foreign.

Hypothesis lower_empty : str_lower [] = [].
Hypothesis lower_koboldcpp : str_lower (py "koboldcpp") = py "koboldcpp".

Lemma foreign_not_owned (entry : json) :
  foreign_entry str_lower entry -> owned_by_koboldcpp entry = Ok false.
Proof.
  intros (e & i & -> & _ & Ho). rewrite owned_by_koboldcpp_object.
  destruct (dict_get (py "owned_by") e) as [[| | | |o| |]|]; try contradiction;
    [|reflexivity].
  simpl. destruct (str_eqb o (py "koboldcpp")) eqn:E; [|reflexivity].
  apply str_eqb_eq in E. subst o. contradiction.
Qed.

Lemma foreign_owner_lower (entry : json) :
  foreign_entry str_lower entry ->
  exists o, owner_lower str_lower entry = Ok o /\ str_eqb o (py "koboldcpp") = false.
Proof.
  intros (e & i & -> & _ & Ho). unfold owner_lower. simpl.
  destruct (dict_get (py "owned_by") e) as [[| | | |o| |]|]; try contradiction.
  - exists (str_lower o). split; [reflexivity|]. apply str_eqb_neq. exact Ho.
  - exists (str_lower []). split; [reflexivity|]. rewrite lower_empty. reflexivity.
Qed.

Lemma foreign_id (entry : json) :
  foreign_entry str_lower entry -> subscript entry (py "id") = Ok (entry_id entry).
Proof. intros (e & i & -> & Hi & _). simpl. rewrite Hi. reflexivity. Qed.

Lemma foreign_contains (entry : json) :
  foreign_entry str_lower entry ->
  contains (py "owned_by") entry = Ok (negb (untagged entry)).
Proof.
  intros (e & i & -> & _ & _). simpl.
  destruct (dict_get (py "owned_by") e); reflexivity.
Qed.

Lemma any_foreign (entries : list json) :
  Forall (foreign_entry str_lower) entries ->
  py_any owned_by_koboldcpp entries = Ok false.
Proof.
  induction 1 as [|entry entries He _ IH]; simpl; [reflexivity|].
  rewrite (foreign_not_owned entry He). simpl. exact IH.
Qed.

Lemma ids_foreign (entries : list json) :
  Forall (foreign_entry str_lower) entries ->
  ids_where (not_koboldcpp str_lower) entries = Ok (List.map entry_id entries).
Proof.
  induction 1 as [|entry entries He _ IH]; simpl; [reflexivity|].
  unfold not_koboldcpp at 1.
  destruct (foreign_owner_lower entry He) as (o & -> & Hne). simpl.
  rewrite Hne. simpl. rewrite (foreign_id entry He). simpl. rewrite IH. reflexivity.
Qed.

Lemma ids_untagged (entries : list json) :
  Forall (foreign_entry str_lower) entries ->
  ids_where (koboldcpp_or_untagged str_lower) entries =
  Ok (List.map entry_id (List.filter untagged entries)).
Proof.
  induction 1 as [|entry entries He _ IH]; simpl; [reflexivity|].
  unfold koboldcpp_or_untagged at 1.
  destruct (foreign_owner_lower entry He) as (o & -> & Hne). simpl.
  rewrite Hne, (foreign_contains entry He). simpl. rewrite negb_involutive.
  destruct (untagged entry); simpl.
  - rewrite (foreign_id entry He). simpl. rewrite IH. reflexivity.
  - exact IH.
Qed.

Lemma models_unless_foreign (kvs : dict) (entries : list json) :
  dict_get (py "data") kvs = Some (JArr entries) ->
  Forall (foreign_entry str_lower) entries ->
  models_unless_koboldcpp str_lower (JObj kvs) = Ok (List.map entry_id entries).
Proof.
  intros Hd Hf. unfold models_unless_koboldcpp.
  rewrite (data_entries_listed kvs entries Hd). simpl.
  rewrite (any_foreign entries Hf), (ids_foreign entries Hf).
  destruct (eq_str _ _); reflexivity.
Qed.

(** C2, as the code has it.  On a delivered listing whose entries are
    well formed and none of which Koboldcpp owns, the Ollama and LM
    Studio clients return exactly the [id] fields, in order; the
    Koboldcpp client returns the [id] fields of the entries that carry
    no [owned_by] field. *)
Theorem models_of_foreign_listing
    (w : world) (c : APIClient) (r : response) (kvs : dict) (entries : list json) :
  delivered w (models_request c) r ->
  listing json_loads r kvs entries ->
  Forall (foreign_entry str_lower) entries ->
  (provider c = Ollama \/ provider c = LM_Studio ->
   fst (get_models w c) = Ok (List.map entry_id entries)) /\
  (provider c = Koboldcpp ->
   fst (get_models w c) = Ok (List.map entry_id (List.filter untagged entries))).
Proof.
  intros Hdel [Hl Hd] Hf.
  rewrite (get_models_delivered w c r (JObj kvs) Hdel Hl).
  split.
  - intros Hp.
    assert (Hs : select_models str_lower (provider c) (JObj kvs) =
                 models_unless_koboldcpp str_lower (JObj kvs)).
    { destruct Hp as [-> | ->]; reflexivity. }
    rewrite Hs, (models_unless_foreign kvs entries Hd Hf). reflexivity.
  - intros ->.
    assert (Hs : select_models str_lower Koboldcpp (JObj kvs) =
                 let! l := data_entries (JObj kvs) in
                 ids_where (koboldcpp_or_untagged str_lower) l) by reflexivity.
    rewrite Hs, (data_entries_listed kvs entries Hd). simpl.
    rewrite (ids_untagged entries Hf). reflexivity.
Qed.

End Foreign.

Lemma any_koboldcpp (entries : list json) :
  Forall is_object entries ->
  Exists koboldcpp_entry entries ->
  py_any owned_by_koboldcpp entries = Ok true.
Proof.
  intros Hobj Hex. induction Hex as [entry entries Hk | entry entries _ IH].
  - destruct Hk as (e & -> & Ho). simpl.
    rewrite owned_by_koboldcpp_object, Ho. reflexivity.
  - inversion Hobj as [|? ? [e ->] Hrest]; subst. simpl.
    rewrite owned_by_koboldcpp_object. simpl.
    destruct (match dict_get (py "owned_by") e with
              | Some o => eq_str o (py "koboldcpp")
              | None => false
              end); [reflexivity | exact (IH Hrest)].
Qed.

(** C3, as the code has it.  For the Ollama and LM Studio clients, a
    delivered listing that is tagged [object == "list"], whose entries
    are objects and one of which has [owned_by == "koboldcpp"], gives the
    empty list. *)
Theorem koboldcpp_backend_lists_nothing
    (w : world) (c : APIClient) (r : response) (kvs : dict) (entries : list json) :
  provider c = Ollama \/ provider c = LM_Studio ->
  delivered w (models_request c) r ->
  listing json_loads r kvs entries ->
  dict_get (py "object") kvs = Some (JStr (py "list")) ->
  Forall is_object entries ->
  Exists koboldcpp_entry entries ->
  fst (get_models w c) = Ok [].
Proof.
  intros Hp Hdel [Hl Hd] Hobj Hall Hex.
  rewrite (get_models_delivered w c r (JObj kvs) Hdel Hl).
  assert (Hs : select_models str_lower (provider c) (JObj kvs) =
               models_unless_koboldcpp str_lower (JObj kvs)).
  { destruct Hp as [-> | ->]; reflexivity. }
  rewrite Hs. unfold models_unless_koboldcpp. simpl. rewrite Hobj. simpl.
  rewrite (data_entries_listed kvs entries Hd). simpl.
  rewrite (any_koboldcpp entries Hall Hex). reflexivity.
Qed.



End Listing.

(** ** Unloading *)

(** C9. For every client whose provider is not Ollama and every model
    name, [unload_model] returns the record whose status reads
    [Unsupported for LM Studio and Koboldcpp] and makes no request. *)
Theorem unload_unsupported (w : world) (c : APIClient) (model_name : pystr) :
  provider c <> Ollama ->
  unload_model w c model_name =
  (Ok [(py "status", JStr (py "Unsupported for LM Studio and Koboldcpp"))], []).
Proof.
  intros Hp. unfold unload_model.
  apply str_eqb_neq in Hp. rewrite Hp. reflexivity.
Qed.

(** ** Images are written into the caller's last message *)

Section Images.

Variable json_loads : pystr -> json_result.

Lemma encode_readable (w : world) (imgs : list pystr) :
  Forall (readable w) imgs ->
  mapM (_encode_image w) imgs = Ok (List.map (image_data w) imgs).
Proof.
  induction 1 as [|path imgs Hr _ IH]; simpl; [reflexivity|].
  unfold readable in Hr. unfold _encode_image at 1, image_data at 1.
  destruct (fs w path); [|contradiction]. simpl. rewrite IH. reflexivity.
Qed.

Lemma store_after_attach (w : world) (c : APIClient) (h h' : gmap nat dict)
    (model : pystr) (messages : list nat) (images : option (list pystr))
    (stream : bool) :
  attach_images w c h messages images = Ok h' ->
  let R := generate_chat_response json_loads w c h model messages images stream in
  store_after R = h' /\
  requests_made R = [chat_request c (chat_payload h' model messages stream)].
Proof.
  intros Ha. simpl. unfold generate_chat_response. rewrite Ha.
  destruct (handlers _). split; reflexivity.
Qed.

Lemma deref_lookup (h : gmap nat dict) (l : nat) (d : dict) :
  h !! l = Some d -> deref h l = d.
Proof. intros H. unfold deref. rewrite H. reflexivity. Qed.

Section LastMessage.

Variables (w : world) (c : APIClient) (h : gmap nat dict)
          (ms : list nat) (l : nat) (d : dict) (imgs : list pystr).
Hypothesis some_images : imgs <> [].
Hypothesis last_is_d : h !! l = Some d.

Lemma attach_images_last :
  attach_images w c h (ms ++ [l]) (Some imgs) =
  let! role := subscript (JObj d) (py "role") in
  if eq_str role (py "user") then
    if openai_style (provider c) then
      let! content := subscript (JObj d) (py "content") in
      let! b64s := mapM (_encode_image w) imgs in
      Ok (<[l := dict_set (py "content")
                   (JArr (text_part content :: List.map image_part b64s)) d]> h)
    else
      let! b64s := mapM (_encode_image w) imgs in
      Ok (<[l := dict_set (py "images") (JArr (List.map JStr b64s)) d]> h)
  else Ok h.
Proof.
  unfold attach_images. destruct imgs as [|i imgs']; [contradiction|].
  rewrite last_snoc, (deref_lookup h l d last_is_d). reflexivity.
Qed.

Lemma attach_images_content (content : json) :
  dict_get (py "role") d = Some (JStr (py "user")) ->
  openai_style (provider c) = true ->
  dict_get (py "content") d = Some content ->
  Forall (readable w) imgs ->
  attach_images w c h (ms ++ [l]) (Some imgs) =
  Ok (<[l := dict_set (py "content")
               (JArr (text_part content
                      :: List.map image_part (List.map (image_data w) imgs))) d]> h).
Proof.
  intros Hr Ho Hc Hread. rewrite attach_images_last. unfold subscript.
  rewrite Hr, Hc. cbn [bind eq_str]. rewrite str_eqb_refl, Ho.
  rewrite (encode_readable w imgs Hread). reflexivity.
Qed.

Lemma attach_images_ollama :
  dict_get (py "role") d = Some (JStr (py "user")) ->
  openai_style (provider c) = false ->
  Forall (readable w) imgs ->
  attach_images w c h (ms ++ [l]) (Some imgs) =
  Ok (<[l := dict_set (py "images")
               (JArr (List.map JStr (List.map (image_data w) imgs))) d]> h).
Proof.
  intros Hr Ho Hread. rewrite attach_images_last. unfold subscript.
  rewrite Hr. cbn [bind eq_str]. rewrite str_eqb_refl, Ho.
  rewrite (encode_readable w imgs Hread). reflexivity.
Qed.

Lemma attach_images_other_role (role : json) :
  dict_get (py "role") d = Some role ->
  eq_str role (py "user") = false ->
  attach_images w c h (ms ++ [l]) (Some imgs) = Ok h.
Proof.
  intros Hr Hnu. rewrite attach_images_last. unfold subscript.
  rewrite Hr. cbn [bind]. rewrite Hnu. reflexivity.
Qed.

End LastMessage.

(** C10, as the code has it.  The generator is iterated with a non-empty
    list of images and a non-empty list of messages.  When the last
    message has role [user] and every image file can be read, the
    dictionary of that message is overwritten in the caller's store: for
    LM Studio and Koboldcpp its [content], which must be present, becomes
    the list of one text part and one [image_url] part per image; for
    Ollama it gets an [images] entry with the base64 text of each image.
    When the role is anything else, the store is left as it was and the
    request carries the messages unchanged. *)
Theorem images_written_in_place
    (w : world) (c : APIClient) (h : gmap nat dict) (model : pystr)
    (ms : list nat) (l : nat) (d : dict) (imgs : list pystr) (stream : bool) :
  let R := generate_chat_response json_loads w c h model (ms ++ [l]) (Some imgs) stream in
  imgs <> [] ->
  h !! l = Some d ->
  (dict_get (py "role") d = Some (JStr (py "user")) ->
   Forall (readable w) imgs ->
   (provider c = LM_Studio \/ provider c = Koboldcpp ->
    forall content, dict_get (py "content") d = Some content ->
    store_after R =
    <[l := dict_set (py "content")
             (JArr (text_part content
                    :: List.map image_part (List.map (image_data w) imgs))) d]> h) /\
   (provider c = Ollama ->
    store_after R =
    <[l := dict_set (py "images")
             (JArr (List.map JStr (List.map (image_data w) imgs))) d]> h)) /\
  (forall role, dict_get (py "role") d = Some role ->
                eq_str role (py "user") = false ->
                store_after R = h /\
                requests_made R = [chat_request c (chat_payload h model (ms ++ [l]) stream)]).
Proof.
  intros R Hne Hl. split.
  - intros Hr Hread. split.
    + intros Hp content Hc.
      assert (Ho : openai_style (provider c) = true)
        by (destruct Hp as [-> | ->]; reflexivity).
      exact (proj1 (store_after_attach w c h _ model _ _ stream
                      (attach_images_content w c h ms l d imgs Hne Hl content
                         Hr Ho Hc Hread))).
    + intros Hp.
      assert (Ho : openai_style (provider c) = false) by (rewrite Hp; reflexivity).
      exact (proj1 (store_after_attach w c h _ model _ _ stream
                      (attach_images_ollama w c h ms l d imgs Hne Hl Hr Ho Hread))).
  - intros role Hr Hnu.
    exact (store_after_attach w c h h model _ _ stream
             (attach_images_other_role w c h ms l d imgs Hne Hl role Hr Hnu)).
Qed.

End Images.

(** ** The theorems at work on concrete responses *)

Lemma ref_done (v : json) : json_loads_ref (py "[DONE]") <> Parsed v.
Proof. intros H. vm_compute in H. discriminate H. Qed.

Lemma ref_empty (v : json) : json_loads_ref [] <> Parsed v.
Proof. intros H. vm_compute in H. discriminate H. Qed.

Ltac by_running := vm_compute; reflexivity.

Ltac sse_line_holds :=
  eexists _, _; split; [by_running|]; split; [by_running|]; split; [by_running|];
  vm_compute; eexists _, _; repeat split.

Lemma stream_concatenation_witness :
  exists frags,
    fragments (run_on [ollama_hello; ollama_world] Ollama) = List.map JStr frags /\
    escaped (run_on [ollama_hello; ollama_world] Ollama) = None /\
    List.concat frags = List.concat [py "Hello"; py " world"].
Proof.
  apply (stream_concatenation json_loads_ref ref_done ref_empty
           (serving (ok_stream [ollama_hello; ollama_world])) (local Ollama)
           ∅ (py "m") [] None true (first_chat (local Ollama))
           (ok_stream [ollama_hello; ollama_world]) [py "Hello"; py " world"]).
  - left. by_running.
  - split; reflexivity.
  - reflexivity.
  - constructor; [sse_line_holds|]. constructor; [sse_line_holds|]. constructor.
Defined.

Lemma done_ends_stream_witness :
  fragments (run_on [delta_hello; done_marker; delta_world] LM_Studio)
  = [JStr (py "Hello")] /\
  escaped (run_on [delta_hello; done_marker; delta_world] LM_Studio) = None.
Proof.
  apply (done_ends_stream json_loads_ref
           (serving (ok_stream [delta_hello; done_marker; delta_world]))
           (local LM_Studio) ∅ (py "m") [] None true (first_chat (local LM_Studio))
           (ok_stream [delta_hello; done_marker; delta_world])
           [delta_hello] [delta_world] done_marker
           [JStr (py "Hello")] (transcript [delta_hello])).
  - left. by_running.
  - split; reflexivity.
  - reflexivity.
  - eexists. split; [by_running|]. split; by_running.
  - by_running.
Defined.


Lemma connection_failure_fragment_witness :
  fragments refused_run = [JStr (connection_error_text (py "Connection refused"))] /\
  escaped refused_run = None /\
  occurs_in (py "API Connection Error")
            (connection_error_text (py "Connection refused")).
Proof.
  apply (connection_failure_fragment json_loads_ref
           (refusing (py "Connection refused")) (local Ollama) ∅ (py "m") [] None true
           (first_chat (local Ollama)) (py "Connection refused")).
  - left. by_running.
  - left. reflexivity.
Defined.

Lemma unload_unsupported_witness :
  unload_model (refusing (py "unreachable")) (local LM_Studio) (py "llama3") =
  (Ok [(py "status", JStr (py "Unsupported for LM Studio and Koboldcpp"))], []).
Proof.
  apply (unload_unsupported (refusing (py "unreachable")) (local LM_Studio) (py "llama3")).
  vm_compute. discriminate.
Defined.

Lemma ascii_lower_empty : ascii_lower [] = [].
Proof. reflexivity. Qed.

Lemma ascii_lower_koboldcpp : ascii_lower (py "koboldcpp") = py "koboldcpp".
Proof. by_running. Qed.

Lemma two_models_foreign : Forall (foreign_entry ascii_lower) two_models.
Proof.
  constructor; [|constructor; [|constructor]];
    eexists _, _; (split; [reflexivity|]); (split; [by_running|]).
  - exact I.
  - vm_compute. discriminate.
Qed.

Lemma models_of_foreign_listing_witness :
  fst (get_available_models json_loads_ref ascii_lower
         (serving (ok_body two_models_body)) (local Ollama))
  = Ok (List.map entry_id two_models) /\
  fst (get_available_models json_loads_ref ascii_lower
         (serving (ok_body two_models_body)) (local Koboldcpp))
  = Ok (List.map entry_id (List.filter untagged two_models)).
Proof.
  split.
  - apply (models_of_foreign_listing json_loads_ref ascii_lower
             ascii_lower_empty ascii_lower_koboldcpp
             (serving (ok_body two_models_body)) (local Ollama)
             (ok_body two_models_body)
             [(py "object", JStr (py "list")); (py "data", JArr two_models)]
             two_models).
    + split; reflexivity.
    + split; by_running.
    + exact two_models_foreign.
    + left. reflexivity.
  - apply (models_of_foreign_listing json_loads_ref ascii_lower
             ascii_lower_empty ascii_lower_koboldcpp
             (serving (ok_body two_models_body)) (local Koboldcpp)
             (ok_body two_models_body)
             [(py "object", JStr (py "list")); (py "data", JArr two_models)]
             two_models).
    + split; reflexivity.
    + split; by_running.
    + exact two_models_foreign.
    + reflexivity.
Defined.

(** C2 fails for the Koboldcpp client: of a listing without any
    Koboldcpp-owned entry it drops the entry that another owner tags. *)
Lemma koboldcpp_drops_tagged_entry :
  listing json_loads_ref (ok_body two_models_body)
    [(py "object", JStr (py "list")); (py "data", JArr two_models)] two_models /\
  Forall (foreign_entry ascii_lower) two_models /\
  List.map entry_id two_models = [JStr (py "llama3"); JStr (py "gpt-x")] /\
  fst (get_available_models json_loads_ref ascii_lower
         (serving (ok_body two_models_body)) (local Koboldcpp))
  = Ok [JStr (py "llama3")].
Proof.
  split; [split; by_running|]. split; [exact two_models_foreign|].
  split; by_running.
Qed.

Lemma mixed_models_objects : Forall is_object mixed_models.
Proof. repeat constructor; eexists; reflexivity. Qed.

Lemma mixed_models_koboldcpp : Exists koboldcpp_entry mixed_models.
Proof. left. eexists. split; [reflexivity | by_running]. Qed.

Lemma koboldcpp_backend_lists_nothing_witness :
  fst (get_available_models json_loads_ref ascii_lower
         (serving (ok_body mixed_tagged_body)) (local LM_Studio)) = Ok [].
Proof.
  apply (koboldcpp_backend_lists_nothing json_loads_ref ascii_lower
           (serving (ok_body mixed_tagged_body)) (local LM_Studio)
           (ok_body mixed_tagged_body)
           [(py "object", JStr (py "list")); (py "data", JArr mixed_models)]
           mixed_models).
  - right. reflexivity.
  - split; reflexivity.
  - split; by_running.
  - by_running.
  - exact mixed_models_objects.
  - exact mixed_models_koboldcpp.
Defined.

(** C3 fails on a listing without the [object] tag: the Koboldcpp entry
    is filtered out and the other entry is returned. *)
Lemma untagged_listing_still_lists :
  listing json_loads_ref (ok_body mixed_untagged_body)
    [(py "data", JArr mixed_models)] mixed_models /\
  Exists koboldcpp_entry mixed_models /\
  fst (get_available_models json_loads_ref ascii_lower
         (serving (ok_body mixed_untagged_body)) (local Ollama))
  = Ok [JStr (py "b")].
Proof.
  split; [split; by_running|]. split; [exact mixed_models_koboldcpp | by_running].
Qed.



Lemma images_written_in_place_witness :
  store_after (generate_chat_response json_loads_ref with_cat (local LM_Studio)
                 one_message (py "m") ([] ++ [0%nat]) (Some [py "cat.png"]) true)
  = <[0%nat := dict_set (py "content")
                 (JArr (text_part (JStr (py "hi"))
                        :: List.map image_part
                             (List.map (image_data with_cat) [py "cat.png"])))
                 greeting]> one_message.
Proof.
  destruct (images_written_in_place json_loads_ref with_cat (local LM_Studio)
              one_message (py "m") [] 0%nat greeting [py "cat.png"] true)
    as [Huser _].
  - discriminate.
  - reflexivity.
  - destruct Huser as [Hcontent _].
    + by_running.
    + constructor; [vm_compute; discriminate | constructor].
    + apply Hcontent; [left; reflexivity | by_running].
Defined.

(** C10 fails when an image cannot be read: [open] raises before the
    message is written, so the caller's message has no [images] entry. *)
Lemma unreadable_image_leaves_message :
  one_message !! 0%nat = Some greeting /\
  dict_get (py "role") greeting = Some (JStr (py "user")) /\
  store_after unreadable_run = one_message /\
  dict_get (py "images") (deref (store_after unreadable_run) 0%nat) = None /\
  escaped unreadable_run = Some (OSError (py "cat.png")).
Proof. repeat split; by_running. Qed.


(** * Further properties of the client *)

(** ** Construction *)

Lemma lstrip_by_app_all (f : N -> bool) (t s : pystr) :
  Forall (fun c => f c = true) t -> lstrip_by f (t ++ s) = lstrip_by f s.
Proof.
  induction 1 as [|c t Hc _ IH]; simpl; [reflexivity|]. rewrite Hc. exact IH.
Qed.

Lemma rstrip_by_app_all (f : N -> bool) (s t : pystr) :
  Forall (fun c => f c = true) t -> rstrip_by f (s ++ t) = rstrip_by f s.
Proof.
  intros Ht. unfold rstrip_by. rewrite rev_app_distr, lstrip_by_app_all;
    [reflexivity|].
  apply List.Forall_rev. exact Ht.
Qed.

Lemma lstrip_by_head (f : N -> bool) (s : pystr) (c : N) (s' : pystr) :
  lstrip_by f s = c :: s' -> f c = false.
Proof.
  induction s as [|x s IH]; simpl; [discriminate|].
  destruct (f x) eqn:E; [exact IH|]. intros [= <- _]. exact E.
Qed.

Lemma rstrip_by_last (f : N -> bool) (s : pystr) (c : N) :
  last (rstrip_by f s) = Some c -> f c = false.
Proof.
  unfold rstrip_by. destruct (lstrip_by f (rev s)) as [|x s'] eqn:E; simpl.
  - discriminate.
  - rewrite last_snoc. intros [= <-]. exact (lstrip_by_head f _ _ _ E).
Qed.

(** X1. Trailing slashes of the base URL do not matter: the client built
    from a URL followed by any number of slashes is the client built from
    the URL, and the stored base URL never ends with a slash. *)
Theorem init_ignores_trailing_slashes (p u : pystr) (n : nat) :
  __init__ p (u ++ repeat 47 n) = __init__ p u /\
  last (base_url (__init__ p u)) <> Some 47.
Proof.
  assert (Hr : rstrip_slash (u ++ repeat 47 n) = rstrip_slash u).
  { apply rstrip_by_app_all. induction n; simpl; constructor;
      [reflexivity | assumption]. }
  split.
  - unfold __init__. rewrite Hr. reflexivity.
  - assert (Hb : base_url (__init__ p u) = rstrip_slash u).
    { unfold __init__. destruct (openai_style p); reflexivity. }
    rewrite Hb. intros Hl. apply rstrip_by_last in Hl. discriminate Hl.
Qed.

(** ** Unloading, for a client made by the constructor *)

(** X2. On a client built by the constructor [unload_model] never
    raises: it returns a record with a [status] field, and it makes a
    request exactly when the provider is Ollama, namely one POST of
    [{name: model_name}] to [/api/unload] under the base URL. *)
Theorem unload_never_raises (w : world) (p u model_name : pystr) :
  exists d status,
    fst (unload_model w (__init__ p u) model_name) = Ok d /\
    dict_get (py "status") d = Some (JStr status) /\
    snd (unload_model w (__init__ p u) model_name) =
    if str_eqb p Ollama
    then [unload_request (rstrip_slash u ++ py "/api/unload") model_name]
    else [].
Proof.
  unfold unload_model.
  assert (Hp : provider (__init__ p u) = p).
  { unfold __init__. destruct (openai_style p); reflexivity. }
  rewrite Hp. destruct (str_eqb p Ollama) eqn:Eo; simpl.
  - apply str_eqb_eq in Eo. subst p.
    change (unload_endpoint (__init__ Ollama u))
      with (Some (rstrip_slash u ++ py "/api/unload")).
    simpl.
    destruct (net w _) as [msg|r]; simpl.
    + eexists _, _. repeat split.
    + unfold raise_for_status.
      destruct ((400 <=? status_code r) && (status_code r <? 600))%Z; simpl;
        eexists _, _; repeat split.
  - eexists _, _. repeat split.
Qed.

(** X3. For the Ollama client built by the constructor, the answer of
    the server decides the record: an accepted status gives [success]
    with the message naming the model, a transport failure or an HTTP
    error status gives [error] with the text of the exception. *)
Theorem unload_ollama_outcome (w : world) (u model_name : pystr) :
  let req := unload_request (rstrip_slash u ++ py "/api/unload") model_name in
  let out := fst (unload_model w (__init__ Ollama u) model_name) in
  (forall r, delivered w req r ->
     out = Ok [(py "status", JStr (py "success"));
               (py "message", JStr (py "'" ++ model_name ++ py "' unloaded."))]) /\
  (forall msg, failed w req msg ->
     out = Ok [(py "status", JStr (py "error")); (py "message", JStr msg)]).
Proof.
  intros req out. subst out. unfold unload_model.
  change (provider (__init__ Ollama u)) with Ollama.
  change (unload_endpoint (__init__ Ollama u))
    with (Some (rstrip_slash u ++ py "/api/unload")).
  rewrite str_eqb_refl. simpl. fold req. split.
  - intros r [Hnet Hst]. rewrite Hnet, Hst. reflexivity.
  - intros msg [Hnet | (r & Hnet & Hst & <-)]; rewrite Hnet; [reflexivity|].
    unfold raise_for_status.
    assert (Hb : ((400 <=? status_code r) && (status_code r <? 600))%Z = true).
    { apply andb_true_iff. split; [apply Z.leb_le | apply Z.ltb_lt]; lia. }
    rewrite Hb. reflexivity.
Qed.

Lemma unload_ollama_outcome_witness :
  fst (unload_model (serving (ok_body [])) (__init__ Ollama (py "http://localhost:11434/"))
         (py "llama3"))
  = Ok [(py "status", JStr (py "success"));
        (py "message", JStr (py "'" ++ py "llama3" ++ py "' unloaded."))] /\
  fst (unload_model (refusing (py "timed out")) (__init__ Ollama (py "http://localhost:11434/"))
         (py "llama3"))
  = Ok [(py "status", JStr (py "error")); (py "message", JStr (py "timed out"))].
Proof.
  split.
  - apply (proj1 (unload_ollama_outcome (serving (ok_body []))
                    (py "http://localhost:11434/") (py "llama3")) (ok_body [])).
    split; reflexivity.
  - apply (proj2 (unload_ollama_outcome (refusing (py "timed out"))
                    (py "http://localhost:11434/") (py "llama3")) (py "timed out")).
    left. reflexivity.
Defined.

(** ** What the lookups can raise *)

Lemma bind_raise {A B} (r : res A) (k : A -> res B) (e : exn) :
  bind r k = Raise e -> r = Raise e \/ exists a, r = Ok a /\ k a = Raise e.
Proof.
  destruct r as [a|e']; simpl; intros H; [right; eauto | left; congruence].
Qed.

Ltac lookup_case := intros [= <-]; unfold lookup_error; tauto.

Lemma subscript_raise (v : json) (k : pystr) (e : exn) :
  subscript v k = Raise e -> lookup_error e.
Proof.
  destruct v; simpl; try lookup_case.
  destruct (dict_get k kvs); [discriminate | lookup_case].
Qed.

Lemma get_default_raise (v : json) (k : pystr) (dflt : json) (e : exn) :
  get_default v k dflt = Raise e -> lookup_error e.
Proof. destruct v; simpl; lookup_case. Qed.

Lemma contains_raise (v : json) (k : pystr) (e : exn) :
  contains k v = Raise e -> lookup_error e.
Proof. destruct v; simpl; lookup_case. Qed.

Lemma py_iter_raise (v : json) (e : exn) : py_iter v = Raise e -> lookup_error e.
Proof. destruct v; simpl; lookup_case. Qed.

Lemma bind_ok {A B} (r : res A) (k : A -> res B) (b : B) :
  bind r k = Ok b -> exists a, r = Ok a /\ k a = Ok b.
Proof. destruct r as [a|e]; simpl; intros H; [eauto | discriminate H]. Qed.

Lemma subscript0_raise (v : json) (e : exn) :
  subscript0 v = Raise e -> shape_error e.
Proof.
  unfold shape_error, lookup_error.
  destruct v as [| | | |s|l|kvs]; simpl; try (intros [= <-]; tauto).
  - destruct s; [intros [= <-]; tauto | discriminate].
  - destruct l; [intros [= <-]; tauto | discriminate].
Qed.

Lemma delta_content_raise (chunk : json) (e : exn) :
  delta_content chunk = Raise e -> shape_error e.
Proof.
  unfold delta_content. intros H.
  apply bind_raise in H as [H | (choices & _ & H)];
    [left; exact (subscript_raise _ _ _ H)|].
  apply bind_raise in H as [H | (first & _ & H)];
    [exact (subscript0_raise _ _ H)|].
  apply bind_raise in H as [H | (delta & _ & H)];
    [left; exact (subscript_raise _ _ _ H)|].
  left. exact (get_default_raise _ _ _ _ H).
Qed.

Lemma message_content_raise (chunk : json) (e : exn) :
  message_content chunk = Raise e -> shape_error e.
Proof.
  unfold message_content. intros H.
  apply bind_raise in H as [H | (message & _ & H)];
    [left; exact (subscript_raise _ _ _ H)|].
  left. exact (get_default_raise _ _ _ _ H).
Qed.

Lemma handlers_shape_error (ys : list json) (raw : pystr) (e : exn) :
  shape_error e -> handlers (ys, raw, Raised e) = (ys, Some e).
Proof.
  intros [[-> | [-> | ->]] | ->]; reflexivity.
Qed.

(** ** Listing: other providers, other shapes *)

Section ListingMore.

Variable json_loads : pystr -> json_result.
Variable str_lower : pystr -> pystr.

Abbreviation get_models' := (get_available_models json_loads str_lower).

(** X4. A client whose provider is none of the three names never gets
    a model: the result is the empty list, unless the body makes the
    JSON parser itself raise [RecursionError] or [ValueError], which
    then leaves the function. *)
Theorem unknown_provider_lists_nothing (w : world) (c : APIClient) :
  provider c <> LM_Studio -> provider c <> Koboldcpp -> provider c <> Ollama ->
  (fst (get_models' w c) = Ok [] \/
   fst (get_models' w c) = Raise RecursionError \/
   fst (get_models' w c) = Raise ValueError) /\
  ((forall r, net w (models_request c) = NetResp r ->
              json_loads (text r) <> TooDeep /\ json_loads (text r) <> TooLong) ->
   fst (get_models' w c) = Ok []).
Proof.
  intros Hl Hk Ho. unfold get_available_models. simpl.
  destruct (net w (models_request c)) as [msg|r]; [split; [left|]; reflexivity|].
  destruct (raise_for_status r) as [[]|e] eqn:Hst; simpl.
  - unfold response_json.
    destruct (json_loads (text r)) as [data|msg| |] eqn:Hload; simpl.
    + unfold select_models.
      apply str_eqb_neq in Hl, Hk, Ho. rewrite Hl, Hk, Ho.
      split; [left|]; reflexivity.
    + split; [left|]; reflexivity.
    + split; [right; left; reflexivity|].
      intros Hsafe. destruct (Hsafe r eq_refl) as [Hd _]. contradiction.
    + split; [right; right; reflexivity|].
      intros Hsafe. destruct (Hsafe r eq_refl) as [_ Hd]. contradiction.
  - unfold raise_for_status in Hst.
    destruct ((400 <=? status_code r) && (status_code r <? 600))%Z;
      [|discriminate].
    injection Hst as <-. split; [left|]; reflexivity.
Qed.

Lemma data_entries_raise (data : json) (e : exn) :
  data_entries data = Raise e -> lookup_error e.
Proof.
  unfold data_entries. intros H.
  apply bind_raise in H as [H | (d & _ & H)].
  - exact (get_default_raise _ _ _ _ H).
  - exact (py_iter_raise _ _ H).
Qed.

Lemma owned_by_koboldcpp_raise (m : json) (e : exn) :
  owned_by_koboldcpp m = Raise e -> lookup_error e.
Proof.
  unfold owned_by_koboldcpp. intros H.
  apply bind_raise in H as [H | (b & _ & H)].
  - exact (contains_raise _ _ _ H).
  - destruct b; [|discriminate].
    apply bind_raise in H as [H | (o & _ & H)]; [|discriminate].
    exact (subscript_raise _ _ _ H).
Qed.

Lemma py_any_raise (f : json -> res bool) (l : list json) (e : exn) :
  (forall m e', f m = Raise e' -> lookup_error e') ->
  py_any f l = Raise e -> lookup_error e.
Proof.
  intros Hf. induction l as [|m l IH]; simpl; [discriminate|]. intros H.
  apply bind_raise in H as [H | (b & _ & H)]; [exact (Hf _ _ H)|].
  destruct b; [discriminate | exact (IH H)].
Qed.

Lemma owner_lower_raise (m : json) (e : exn) :
  owner_lower str_lower m = Raise e -> lookup_error e.
Proof.
  unfold owner_lower. intros H.
  apply bind_raise in H as [H | (o & _ & H)].
  - exact (get_default_raise _ _ _ _ H).
  - destruct o; try discriminate; revert H; lookup_case.
Qed.

Lemma ids_where_raise (keep : json -> res bool) (l : list json) (e : exn) :
  (forall m e', keep m = Raise e' -> lookup_error e') ->
  ids_where keep l = Raise e -> lookup_error e.
Proof.
  intros Hk. induction l as [|m l IH]; simpl; [discriminate|]. intros H.
  apply bind_raise in H as [H | (b & _ & H)]; [exact (Hk _ _ H)|].
  destruct b; [|exact (IH H)].
  apply bind_raise in H as [H | (i & _ & H)]; [exact (subscript_raise _ _ _ H)|].
  apply bind_raise in H as [H | (r & _ & H)]; [exact (IH H) | discriminate].
Qed.

Lemma not_koboldcpp_raise (m : json) (e : exn) :
  not_koboldcpp str_lower m = Raise e -> lookup_error e.
Proof.
  unfold not_koboldcpp. intros H.
  apply bind_raise in H as [H | (o & _ & H)]; [|discriminate].
  exact (owner_lower_raise _ _ H).
Qed.

Lemma koboldcpp_or_untagged_raise (m : json) (e : exn) :
  koboldcpp_or_untagged str_lower m = Raise e -> lookup_error e.
Proof.
  unfold koboldcpp_or_untagged. intros H.
  apply bind_raise in H as [H | (o & _ & H)]; [exact (owner_lower_raise _ _ H)|].
  destruct (str_eqb o (py "koboldcpp")); [discriminate|].
  apply bind_raise in H as [H | (b & _ & H)]; [|discriminate].
  exact (contains_raise _ _ _ H).
Qed.

Lemma models_unless_koboldcpp_raise (data : json) (e : exn) :
  models_unless_koboldcpp str_lower data = Raise e -> lookup_error e.
Proof.
  unfold models_unless_koboldcpp. intros H.
  apply bind_raise in H as [H | (obj & _ & H)];
    [exact (get_default_raise _ _ _ _ H)|].
  apply bind_raise in H as [H | (wrong & _ & H)].
  - destruct (eq_str obj (py "list")); [|discriminate].
    apply bind_raise in H as [H | (l & _ & H)]; [exact (data_entries_raise _ _ H)|].
    exact (py_any_raise _ _ _ owned_by_koboldcpp_raise H).
  - destruct wrong; [discriminate|].
    apply bind_raise in H as [H | (l & _ & H)]; [exact (data_entries_raise _ _ H)|].
    exact (ids_where_raise _ _ _ not_koboldcpp_raise H).
Qed.

Lemma select_models_raise (p : pystr) (data : json) (e : exn) :
  select_models str_lower p data = Raise e -> lookup_error e.
Proof.
  unfold select_models.
  destruct (str_eqb p LM_Studio); [apply models_unless_koboldcpp_raise|].
  destruct (str_eqb p Koboldcpp).
  - intros H. apply bind_raise in H as [H | (l & _ & H)];
      [exact (data_entries_raise _ _ H)|].
    exact (ids_where_raise _ _ _ koboldcpp_or_untagged_raise H).
  - destruct (str_eqb p Ollama); [apply models_unless_koboldcpp_raise | discriminate].
Qed.

(** X5. Whatever the server sends, an exception that leaves
    [get_available_models] is either one of reading a parsed body of the
    wrong shape ([KeyError], [TypeError], [AttributeError]) or the
    [RecursionError] or [ValueError] that the JSON parser raised on the
    body; transport failures, error statuses and [JSONDecodeError]
    never leave it. *)
Theorem listing_raises_lookup_or_parser_errors
    (w : world) (c : APIClient) (e : exn) :
  fst (get_models' w c) = Raise e ->
  (e = KeyError \/ e = TypeError \/ e = AttributeError) \/
  (exists r, net w (models_request c) = NetResp r /\
             (json_loads (text r) = TooDeep /\ e = RecursionError \/
              json_loads (text r) = TooLong /\ e = ValueError)).
Proof.
  unfold get_available_models. simpl. intros H.
  destruct (net w (models_request c)) as [msg|r] eqn:Hnet; [discriminate|].
  destruct (raise_for_status r) as [[]|e0] eqn:Hst; simpl in H.
  - unfold response_json in H.
    destruct (json_loads (text r)) as [data|msg| |] eqn:Hload; simpl in H.
    + destruct (select_models str_lower (provider c) data) as [l|e1] eqn:Hsel;
        [discriminate|].
      pose proof (select_models_raise _ _ _ Hsel) as Hshape.
      left. destruct Hshape as [-> | [-> | ->]]; simpl in H;
        injection H as <-; tauto.
    + discriminate.
    + injection H as <-. right. exists r. split; [reflexivity|]. left. tauto.
    + injection H as <-. right. exists r. split; [reflexivity|]. right. tauto.
  - unfold raise_for_status in Hst.
    destruct ((400 <=? status_code r) && (status_code r <? 600))%Z;
      [|discriminate].
    injection Hst as <-. discriminate.
Qed.

End ListingMore.

Lemma ref_never_overflows (s : pystr) :
  json_loads_ref s <> TooDeep /\ json_loads_ref s <> TooLong.
Proof.
  unfold json_loads_ref.
  destruct (parse_value _ s) as [[v rest]|]; [destruct (skip_ws rest)|];
    split; discriminate.
Qed.

Lemma unknown_provider_lists_nothing_witness :
  fst (get_available_models json_loads_ref ascii_lower
         (serving (ok_body two_models_body)) (local unknown_provider)) = Ok [].
Proof.
  apply (unknown_provider_lists_nothing json_loads_ref ascii_lower
           (serving (ok_body two_models_body)) (local unknown_provider)).
  - vm_compute. discriminate.
  - vm_compute. discriminate.
  - vm_compute. discriminate.
  - intros r _. apply ref_never_overflows.
Defined.

Lemma listing_raises_lookup_or_parser_errors_witness :
  (KeyError = KeyError \/ KeyError = TypeError \/ KeyError = AttributeError) \/
  (exists r, net (serving (ok_body nameless_body)) (models_request (local LM_Studio))
             = NetResp r /\
             (json_loads_ref (text r) = TooDeep /\ KeyError = RecursionError \/
              json_loads_ref (text r) = TooLong /\ KeyError = ValueError)).
Proof.
  apply (listing_raises_lookup_or_parser_errors json_loads_ref ascii_lower
           (serving (ok_body nameless_body)) (local LM_Studio) KeyError).
  by_running.
Defined.

(** ** Listing: what is kept of well-formed entries *)

Section ListingFilters.

Variable json_loads : pystr -> json_result.
Variable str_lower : pystr -> pystr.

Lemma entry_owner_lower (entry : json) :
  model_entry entry -> owner_lower str_lower entry = Ok (str_lower (owner entry)).
Proof.
  intros (e & i & -> & _ & Ho). unfold owner_lower, owner. simpl.
  destruct (dict_get (py "owned_by") e) as [[| | | |o| |]|];
    try contradiction; reflexivity.
Qed.

Lemma entry_subscript_id (entry : json) :
  model_entry entry -> subscript entry (py "id") = Ok (entry_id entry).
Proof. intros (e & i & -> & Hi & _). simpl. rewrite Hi. reflexivity. Qed.

Lemma entry_contains_owner (entry : json) :
  model_entry entry -> contains (py "owned_by") entry = Ok (negb (untagged entry)).
Proof.
  intros (e & i & -> & _ & _). simpl.
  destruct (dict_get (py "owned_by") e); reflexivity.
Qed.

Lemma entry_owned_by_koboldcpp (entry : json) :
  model_entry entry ->
  owned_by_koboldcpp entry = Ok (str_eqb (owner entry) (py "koboldcpp")).
Proof.
  intros (e & i & -> & _ & Ho). rewrite owned_by_koboldcpp_object. unfold owner.
  destruct (dict_get (py "owned_by") e) as [[| | | |o| |]|];
    try contradiction; reflexivity.
Qed.

Lemma any_entries (entries : list json) :
  Forall model_entry entries ->
  py_any owned_by_koboldcpp entries =
  Ok (existsb (fun e => str_eqb (owner e) (py "koboldcpp")) entries).
Proof.
  induction 1 as [|entry entries He _ IH]; simpl; [reflexivity|].
  rewrite (entry_owned_by_koboldcpp entry He). simpl.
  destruct (str_eqb (owner entry) (py "koboldcpp")); [reflexivity | exact IH].
Qed.

Lemma ids_where_entries (keep : json -> res bool) (test : json -> bool)
    (entries : list json) :
  Forall model_entry entries ->
  (forall entry, model_entry entry -> keep entry = Ok (test entry)) ->
  ids_where keep entries = Ok (List.map entry_id (List.filter test entries)).
Proof.
  intros Hall Hk. induction Hall as [|entry entries He _ IH]; simpl; [reflexivity|].
  rewrite (Hk entry He). simpl. destruct (test entry); simpl.
  - rewrite (entry_subscript_id entry He). simpl. rewrite IH. reflexivity.
  - exact IH.
Qed.

(** X6. For the Ollama and LM Studio clients, a delivered listing of
    well-formed entries never raises and gives: nothing, when the
    listing is tagged [object == "list"] and some [owned_by] is exactly
    [koboldcpp]; otherwise the ids, in order, of the entries whose
    [owned_by] does not lower-case to [koboldcpp].  So an owner spelt
    with capitals hides its own entry but not the others. *)
Theorem ollama_lm_studio_listing
    (w : world) (c : APIClient) (r : response) (kvs : dict) (entries : list json) :
  provider c = Ollama \/ provider c = LM_Studio ->
  delivered w (models_request c) r ->
  listing json_loads r kvs entries ->
  Forall model_entry entries ->
  fst (get_available_models json_loads str_lower w c)
  = Ok (listed_unless_koboldcpp str_lower kvs entries).
Proof.
  intros Hp Hdel [Hl Hd] Hall.
  rewrite (get_models_delivered json_loads str_lower w c r (JObj kvs) Hdel Hl).
  assert (Hs : select_models str_lower (provider c) (JObj kvs) =
               models_unless_koboldcpp str_lower (JObj kvs)).
  { destruct Hp as [-> | ->]; reflexivity. }
  rewrite Hs. unfold models_unless_koboldcpp, listed_unless_koboldcpp.
  rewrite (data_entries_listed kvs entries Hd). simpl.
  rewrite (any_entries entries Hall).
  rewrite (ids_where_entries (not_koboldcpp str_lower)
             (fun e => negb (str_eqb (str_lower (owner e)) (py "koboldcpp")))
             entries Hall).
  - destruct (dict_get (py "object") kvs) as [obj|]; simpl.
    + destruct (eq_str obj (py "list")); simpl; [|reflexivity].
      destruct (existsb _ entries); reflexivity.
    + reflexivity.
  - intros entry He. unfold not_koboldcpp.
    rewrite (entry_owner_lower entry He). reflexivity.
Qed.

(** X7. For the Koboldcpp client, a delivered listing of well-formed
    entries never raises and gives the ids, in order, of the entries
    whose [owned_by] lower-cases to [koboldcpp] and of the entries that
    have no [owned_by]. *)
Theorem koboldcpp_listing
    (w : world) (c : APIClient) (r : response) (kvs : dict) (entries : list json) :
  provider c = Koboldcpp ->
  delivered w (models_request c) r ->
  listing json_loads r kvs entries ->
  Forall model_entry entries ->
  fst (get_available_models json_loads str_lower w c)
  = Ok (listed_by_koboldcpp str_lower entries).
Proof.
  intros Hp Hdel [Hl Hd] Hall.
  rewrite (get_models_delivered json_loads str_lower w c r (JObj kvs) Hdel Hl).
  rewrite Hp.
  assert (Hs : select_models str_lower Koboldcpp (JObj kvs) =
               let! l := data_entries (JObj kvs) in
               ids_where (koboldcpp_or_untagged str_lower) l) by reflexivity.
  rewrite Hs, (data_entries_listed kvs entries Hd). simpl.
  rewrite (ids_where_entries (koboldcpp_or_untagged str_lower)
             (fun e => str_eqb (str_lower (owner e)) (py "koboldcpp") || untagged e)
             entries Hall); [reflexivity|].
  intros entry He. unfold koboldcpp_or_untagged.
  rewrite (entry_owner_lower entry He). simpl.
  destruct (str_eqb (str_lower (owner entry)) (py "koboldcpp")); simpl;
    [reflexivity|].
  rewrite (entry_contains_owner entry He). simpl.
  rewrite negb_involutive. reflexivity.
Qed.

End ListingFilters.

Lemma mixed_case_models_entries : Forall model_entry mixed_case_models.
Proof.
  repeat constructor; eexists _, _;
    (split; [reflexivity|]); (split; [by_running|]); vm_compute; exact I.
Qed.

Lemma ollama_lm_studio_listing_witness :
  fst (get_available_models json_loads_ref ascii_lower
         (serving (ok_body mixed_case_body)) (local Ollama))
  = Ok (listed_unless_koboldcpp ascii_lower
          [(py "object", JStr (py "list")); (py "data", JArr mixed_case_models)]
          mixed_case_models).
Proof.
  apply (ollama_lm_studio_listing json_loads_ref ascii_lower
           (serving (ok_body mixed_case_body)) (local Ollama)
           (ok_body mixed_case_body)
           [(py "object", JStr (py "list")); (py "data", JArr mixed_case_models)]
           mixed_case_models).
  - left. reflexivity.
  - split; reflexivity.
  - split; by_running.
  - exact mixed_case_models_entries.
Defined.

Lemma koboldcpp_listing_witness :
  fst (get_available_models json_loads_ref ascii_lower
         (serving (ok_body mixed_case_body)) (local Koboldcpp))
  = Ok (listed_by_koboldcpp ascii_lower mixed_case_models).
Proof.
  apply (koboldcpp_listing json_loads_ref ascii_lower
           (serving (ok_body mixed_case_body)) (local Koboldcpp)
           (ok_body mixed_case_body)
           [(py "object", JStr (py "list")); (py "data", JArr mixed_case_models)]
           mixed_case_models).
  - reflexivity.
  - split; reflexivity.
  - split; by_running.
  - exact mixed_case_models_entries.
Defined.

(** ** The generator as a whole *)

Section Generator.

Variable json_loads : pystr -> json_result.
Variables (w : world) (c : APIClient) (h : gmap nat dict) (model : pystr)
          (messages : list nat) (images : option (list pystr)) (stream : bool).

Let R := generate_chat_response json_loads w c h model messages images stream.

(** Either the attachment raised and nothing else happened, or the one
    request went out and the handlers closed the loop. *)
Lemma run_cases :
  (exists e, attach_images w c h messages images = Raise e /\
             store_after R = h /\ fragments R = [] /\
             escaped R = Some e /\ requests_made R = []) \/
  (exists h', attach_images w c h messages images = Ok h' /\
              store_after R = h' /\
              requests_made R = [chat_request c (chat_payload h' model messages stream)] /\
              (fragments R, escaped R) =
              handlers (answered json_loads (provider c)
                          (net w (chat_request c (chat_payload h' model messages stream))))).
Proof.
  subst R. unfold generate_chat_response.
  destruct (attach_images w c h messages images) as [h'|e].
  - right. exists h'. unfold answered.
    destruct (handlers _) as [ys e]. repeat split.
  - left. exists e. repeat split.
Qed.

Lemma emit_yield (r : res json) (v : json) : emit r = Yield v -> truthy v = true.
Proof.
  destruct r as [content|e]; simpl; [|discriminate].
  destruct (truthy content) eqn:E; [|discriminate]. intros [= <-]. exact E.
Qed.

Lemma line_handler_yield (p d : pystr) (v : json) :
  line_handler json_loads p d = Yield v -> truthy v = true.
Proof.
  unfold line_handler.
  destruct (str_eqb p Koboldcpp); unfold kobold_line, plain_line;
    destruct (startswith (py "data: ") d).
  - destruct (str_eqb (sse_payload d) (py "[DONE]")); [discriminate|].
    destruct (sse_payload d); [discriminate|].
    destruct (emit _) eqn:E; try discriminate.
    intros [= <-]. exact (emit_yield _ _ E).
  - discriminate.
  - destruct (str_eqb (sse_payload d) (py "[DONE]")); [discriminate|].
    destruct (sse_payload d); [discriminate|]. apply emit_yield.
  - destruct (has_brace d); [apply emit_yield | discriminate].
Qed.

Lemma iter_lines_yields (P : json -> Prop) (f : pystr -> action) :
  (forall d v, f d = Yield v -> P v) ->
  forall ls raw, Forall P (fst (fst (iter_lines f raw ls))).
Proof.
  intros Hf. induction ls as [|line ls IH]; intros raw; simpl; [constructor|].
  destruct line as [|b0 line]; [apply IH|].
  destruct (decode (b0 :: line)) as [d|]; [|constructor].
  destruct (f d) eqn:E; try constructor.
  - apply IH.
  - specialize (IH (raw ++ d ++ nl)).
    destruct (iter_lines f (raw ++ d ++ nl) ls) as [[ys r] e]. simpl in *.
    constructor; [exact (Hf d v E) | exact IH].
Qed.

Lemma answered_yields (n : net_result) :
  Forall (fun v => truthy v = true)
         (fst (fst (answered json_loads (provider c) n))).
Proof.
  destruct n as [msg|r]; simpl; [constructor|].
  unfold consume. destruct (raise_for_status r); [|constructor].
  pose proof (iter_lines_yields (fun v => truthy v = true)
                (line_handler json_loads (provider c))
                (line_handler_yield (provider c)) (lines r) []) as H.
  destruct (iter_lines _ [] (lines r)) as [[ys raw] e]. simpl in *.
  destruct e; destruct (iter_error r); exact H.
Qed.

Lemma handlers_yields (out : list json * pystr * loop_end) :
  Forall (fun v => truthy v = true) (fst (fst out)) ->
  Forall (fun v => truthy v = true) (fst (handlers out)).
Proof.
  destruct out as [[ys raw] e]. simpl. intros H.
  destruct e as [| |e]; simpl; try exact H.
  destruct e; simpl; try exact H.
  - apply Forall_app. split; [exact H|]. apply Forall_cons. split.
    + reflexivity.
    + apply Forall_nil. exact I.
  - apply Forall_app. split; [exact H|]. apply Forall_cons. split.
    + reflexivity.
    + apply Forall_nil. exact I.
Qed.

(** X8. Every fragment the generator yields is truthy: empty contents,
    [null] and zero never come out, whatever the server sends. *)
Theorem fragments_are_truthy : Forall (fun v => truthy v = true) (fragments R).
Proof.
  destruct run_cases as [(e & _ & _ & Hf & _) | (h' & _ & _ & _ & Hrun)].
  - rewrite Hf. constructor.
  - change (fragments R) with (fst (fragments R, escaped R)). rewrite Hrun.
    apply handlers_yields, answered_yields.
Qed.

Lemma handlers_escaped (out : list json * pystr * loop_end) (e : exn) :
  snd (handlers out) = Some e ->
  (forall msg, e <> RequestException msg) /\ (forall msg, e <> JSONDecodeError msg).
Proof.
  destruct out as [[ys raw] end_]. simpl.
  destruct end_ as [| |e']; simpl; try discriminate.
  destruct e'; simpl; try discriminate; intros [= <-]; split; discriminate.
Qed.

Lemma mapM_encode_raise (imgs : list pystr) (e : exn) :
  mapM (_encode_image w) imgs = Raise e -> exists path, e = OSError path.
Proof.
  induction imgs as [|i imgs IH]; simpl; [discriminate|]. intros H.
  apply bind_raise in H as [H | (y & _ & H)].
  - unfold _encode_image in H. destruct (fs w i); [discriminate|].
    injection H as <-. eauto.
  - apply bind_raise in H as [H | (ys & _ & H)]; [exact (IH H) | discriminate].
Qed.

Lemma attach_images_raise (e : exn) :
  attach_images w c h messages images = Raise e ->
  e = KeyError \/ exists path, e = OSError path.
Proof.
  unfold attach_images.
  destruct images as [[|i imgs]|]; try discriminate.
  destruct (last messages) as [l|]; [|discriminate].
  intros H. apply bind_raise in H as [H | (role & _ & H)].
  - simpl in H. destruct (dict_get (py "role") (deref h l)); [discriminate|].
    injection H as <-. left. reflexivity.
  - destruct (eq_str role (py "user")); [|discriminate].
    destruct (openai_style (provider c)).
    + apply bind_raise in H as [H | (content & _ & H)].
      * simpl in H. destruct (dict_get (py "content") (deref h l)); [discriminate|].
        injection H as <-. left. reflexivity.
      * apply bind_raise in H as [H | (b64s & _ & H)]; [|discriminate].
        right. exact (mapM_encode_raise _ _ H).
    + apply bind_raise in H as [H | (b64s & _ & H)]; [|discriminate].
      right. exact (mapM_encode_raise _ _ H).
Qed.

(** X9. No [RequestException] and no [JSONDecodeError] ever leaves the
    generator: both are turned into a last fragment.  What can leave it
    is something else ([KeyError], [OSError], [UnicodeDecodeError], ...). *)
Theorem transport_and_decode_errors_stay_inside (e : exn) :
  escaped R = Some e ->
  (forall msg, e <> RequestException msg) /\ (forall msg, e <> JSONDecodeError msg).
Proof.
  destruct run_cases as [(e' & Ha & _ & _ & He & _) | (h' & _ & _ & _ & Hrun)].
  - rewrite He. intros [= <-].
    destruct (attach_images_raise e' Ha) as [-> | [path ->]]; split; discriminate.
  - change (escaped R) with (snd (fragments R, escaped R)). rewrite Hrun.
    apply handlers_escaped.
Qed.

(** X10. The generator makes at most one request.  Either it makes none,
    and then it has yielded nothing, left the store alone and raised; or
    it makes exactly one POST to the chat endpoint, whose [messages] are
    the caller's dictionaries as they are after the attachment. *)
Theorem one_request_with_current_messages :
  (requests_made R = [] /\ fragments R = [] /\ store_after R = h /\
   escaped R <> None) \/
  requests_made R =
  [{| meth := POST; url := api_endpoint c;
      req_headers := [(py "Content-Type", py "application/json")];
      req_json :=
        Some (JObj [(py "model", JStr model);
                    (py "messages",
                     JArr (List.map (fun l => JObj (deref (store_after R) l)) messages));
                    (py "stream", JBool stream)]);
      req_stream := true; timeout := 300 |}].
Proof.
  destruct run_cases as [(e & _ & Hs & Hf & He & Hr) | (h' & _ & Hs & Hr & _)].
  - left. rewrite He. repeat split; try assumption. discriminate.
  - right. rewrite Hr, Hs. reflexivity.
Qed.

End Generator.

(** ** What the attachment leaves alone *)

Section Frame.

Variable json_loads : pystr -> json_result.
Variables (w : world) (c : APIClient) (h : gmap nat dict) (model : pystr)
          (messages : list nat) (images : option (list pystr)) (stream : bool).

Let R := generate_chat_response json_loads w c h model messages images stream.

Lemma attach_images_frame (h' : gmap nat dict) (l' : nat) :
  attach_images w c h messages images = Ok h' ->
  last messages <> Some l' -> h' !! l' = h !! l'.
Proof.
  unfold attach_images.
  destruct images as [[|i imgs]|]; try (intros [= <-] _; reflexivity).
  destruct (last messages) as [l|]; [|intros [= <-] _; reflexivity].
  intros H Hne. assert (Hl : l <> l') by congruence.
  apply bind_ok in H as (role & _ & H).
  destruct (eq_str role (py "user")); [|injection H as <-; reflexivity].
  destruct (openai_style (provider c)).
  - apply bind_ok in H as (content & _ & H).
    apply bind_ok in H as (b64s & _ & H).
    injection H as <-. apply lookup_insert_ne. exact Hl.
  - apply bind_ok in H as (b64s & _ & H).
    injection H as <-. apply lookup_insert_ne. exact Hl.
Qed.

(** X11. The generator writes to no dictionary but the one of the last
    message: every other location of the caller's store holds after the
    run what it held before. *)
Theorem only_last_message_is_written (l' : nat) :
  last messages <> Some l' -> store_after R !! l' = h !! l'.
Proof.
  intros Hne.
  destruct (run_cases json_loads w c h model messages images stream)
    as [(e & _ & Hs & _) | (h' & Ha & Hs & _)]; fold R in Hs; rewrite Hs.
  - reflexivity.
  - exact (attach_images_frame h' l' Ha Hne).
Qed.

(** X12. Without images ([None] or an empty list), or without messages,
    nothing is written and the request carries the messages as the
    caller holds them. *)
Theorem nothing_attached_nothing_written :
  images = None \/ images = Some [] \/ messages = [] ->
  store_after R = h /\
  requests_made R = [chat_request c (chat_payload h model messages stream)].
Proof.
  intros Hcase.
  assert (Ha : attach_images w c h messages images = Ok h).
  { unfold attach_images. destruct Hcase as [-> | [-> | ->]]; try reflexivity.
    destruct images as [[|i imgs]|]; reflexivity. }
  exact (store_after_attach json_loads w c h h model messages images stream Ha).
Qed.

End Frame.

(** ** More of the streaming loop *)

Section Loop.

Variable json_loads : pystr -> json_result.

(** X13. When the stream breaks after its last line, the fragments
    already yielded stay and one connection error fragment follows; the
    generator then ends normally. *)
Theorem broken_stream_keeps_fragments
    (w : world) (c : APIClient) (h : gmap nat dict) (model : pystr)
    (messages : list nat) (images : option (list pystr)) (stream : bool)
    (req : request) (r : response) (ys : list json) (raw msg : pystr) :
  let R := generate_chat_response json_loads w c h model messages images stream in
  In req (requests_made R) ->
  delivered w req r ->
  iter_lines (line_handler json_loads (provider c)) [] (lines r) = (ys, raw, Exhausted) ->
  iter_error r = Some msg ->
  fragments R = ys ++ [JStr (connection_error_text msg)] /\ escaped R = None.
Proof.
  intros R Hreq [Hnet Hst] Hl Hit.
  pose proof (run_response json_loads w c h model messages images stream req r
                Hreq Hnet) as Hrun.
  fold R in Hrun.
  rewrite (consume_delivered json_loads c r Hst), Hl, Hit in Hrun.
  simpl in Hrun. injection Hrun as -> ->. split; reflexivity.
Qed.

Lemma plain_line_raw_json (p : pystr) (line : list byte) (word : pystr) :
  raw_json_line json_loads line word ->
  exists d, decode line = Some d /\ d <> [] /\
            plain_line json_loads p d =
            if nonempty word then Yield (JStr word) else Continue.
Proof.
  intros (d & kvs & message & Hd & Hs & Hb & Hl & Hm & Hc). exists d.
  split; [exact Hd|]. split; [exact (has_brace_nonempty d Hb)|].
  unfold plain_line. rewrite Hs, Hb. unfold loads. rewrite Hl.
  unfold fallback_content. simpl. rewrite Hm. simpl. rewrite Hc.
  apply emit_word.
Qed.

Lemma iter_lines_raw_json (p : pystr) (ls : list (list byte)) (words : list pystr) :
  Forall2 (raw_json_line json_loads) ls words ->
  forall raw,
    iter_lines (plain_line json_loads p) raw ls =
    (List.map JStr (List.filter nonempty words), raw ++ transcript ls, Exhausted).
Proof.
  induction 1 as [|line word ls words Hline Hrest IH]; intros raw.
  - simpl. rewrite app_nil_r. reflexivity.
  - destruct (plain_line_raw_json p line word Hline) as (d & Hd & Hne & Hh).
    rewrite (iter_lines_cons _ _ _ _ d Hd Hne), Hh, IH.
    change (line :: ls) with ([line] ++ ls).
    rewrite transcript_app, (transcript_one line d Hd Hne), <- !app_assoc.
    cbn [List.filter]. destruct (nonempty word); reflexivity.
Qed.

(** X14. The Ollama and LM Studio clients also read newline-delimited
    JSON: a response of N lines without the SSE prefix, each an object
    with a string [message.content], yields exactly the non-empty
    contents in order, and their concatenation is that of the contents. *)
Theorem raw_json_lines_stream
    (w : world) (c : APIClient) (h : gmap nat dict) (model : pystr)
    (messages : list nat) (images : option (list pystr)) (stream : bool)
    (req : request) (r : response) (words : list pystr) :
  let R := generate_chat_response json_loads w c h model messages images stream in
  provider c = Ollama \/ provider c = LM_Studio ->
  In req (requests_made R) ->
  delivered w req r ->
  iter_error r = None ->
  Forall2 (raw_json_line json_loads) (lines r) words ->
  fragments R = List.map JStr (List.filter nonempty words) /\
  escaped R = None /\
  List.concat (List.filter nonempty words) = List.concat words.
Proof.
  intros R Hp Hreq [Hnet Hst] Hit Hlines.
  pose proof (run_response json_loads w c h model messages images stream req r
                Hreq Hnet) as Hrun.
  fold R in Hrun.
  assert (Hk : line_handler json_loads (provider c) = plain_line json_loads (provider c)).
  { unfold line_handler. destruct Hp as [-> | ->]; reflexivity. }
  rewrite (consume_delivered json_loads c r Hst), Hk in Hrun.
  rewrite (iter_lines_raw_json _ _ _ Hlines), Hit in Hrun. simpl in Hrun.
  injection Hrun as -> ->. repeat split. apply concat_filter_nonempty.
Qed.

Lemma decode_cons_nonempty (b0 : byte) (line : list byte) (d : pystr) :
  decode (b0 :: line) = Some d -> d <> [].
Proof.
  unfold decode. simpl. intros H ->.
  repeat match type of H with
         | (if ?b then _ else _) = _ => destruct b
         | match ?l with _ => _ end = _ => destruct l
         | option_map _ ?o = _ => destruct o; simpl in H
         end; discriminate H.
Qed.

Lemma kobold_line_unprefixed (d : pystr) :
  startswith (py "data: ") d = false -> kobold_line json_loads d = Continue.
Proof. intros H. unfold kobold_line. rewrite H. reflexivity. Qed.

Lemma iter_kobold_unprefixed (ls : list (list byte)) :
  Forall unprefixed_line ls ->
  forall raw, iter_lines (kobold_line json_loads) raw ls
              = ([], raw ++ transcript ls, Exhausted).
Proof.
  induction 1 as [|line ls (d & Hd & Hs) _ IH]; intros raw.
  - simpl. rewrite app_nil_r. reflexivity.
  - destruct line as [|b0 line].
    + simpl. apply IH.
    + pose proof (decode_cons_nonempty b0 line d Hd) as Hne.
      rewrite (iter_lines_cons _ _ _ _ d Hd Hne), (kobold_line_unprefixed d Hs), IH.
      change ((b0 :: line) :: ls) with ([b0 :: line] ++ ls).
      rewrite transcript_app, (transcript_one _ d Hd Hne), <- !app_assoc.
      reflexivity.
Qed.

(** X15. The Koboldcpp client reads SSE lines only: a response whose
    lines are text without the [data: ] prefix, newline-delimited JSON
    included, yields nothing and ends normally. *)
Theorem koboldcpp_ignores_unprefixed_lines
    (w : world) (c : APIClient) (h : gmap nat dict) (model : pystr)
    (messages : list nat) (images : option (list pystr)) (stream : bool)
    (req : request) (r : response) :
  let R := generate_chat_response json_loads w c h model messages images stream in
  provider c = Koboldcpp ->
  In req (requests_made R) ->
  delivered w req r ->
  iter_error r = None ->
  Forall unprefixed_line (lines r) ->
  fragments R = [] /\ escaped R = None.
Proof.
  intros R Hp Hreq [Hnet Hst] Hit Hlines.
  pose proof (run_response json_loads w c h model messages images stream req r
                Hreq Hnet) as Hrun.
  fold R in Hrun.
  assert (Hk : line_handler json_loads (provider c) = kobold_line json_loads).
  { rewrite Hp. reflexivity. }
  rewrite (consume_delivered json_loads c r Hst), Hk in Hrun.
  rewrite (iter_kobold_unprefixed _ Hlines), Hit in Hrun. simpl in Hrun.
  injection Hrun as -> ->. split; reflexivity.
Qed.

(** X16. The Ollama and LM Studio loops do not skip a chunk of the wrong
    shape: when the payload of an SSE line parses but lacks
    [message] (Ollama) or [choices[0].delta] (LM Studio), the exception
    of the lookup leaves the generator after the fragments of the
    earlier lines, and the remaining lines are not read. *)
Theorem wrong_shape_ends_plain_stream
    (w : world) (c : APIClient) (h : gmap nat dict) (model : pystr)
    (messages : list nat) (images : option (list pystr)) (stream : bool)
    (req : request) (r : response)
    (pre rest : list (list byte)) (bad : list byte) (d : pystr) (chunk : json)
    (e : exn) (ys : list json) (raw : pystr) :
  let R := generate_chat_response json_loads w c h model messages images stream in
  In req (requests_made R) ->
  delivered w req r ->
  lines r = pre ++ bad :: rest ->
  iter_lines (line_handler json_loads (provider c)) [] pre = (ys, raw, Exhausted) ->
  decode bad = Some d ->
  startswith (py "data: ") d = true ->
  sse_payload d <> py "[DONE]" ->
  sse_payload d <> [] ->
  json_loads (sse_payload d) = Parsed chunk ->
  (provider c = Ollama /\ message_content chunk = Raise e \/
   provider c = LM_Studio /\ delta_content chunk = Raise e) ->
  fragments R = ys /\ escaped R = Some e /\
  (e = KeyError \/ e = TypeError \/ e = AttributeError \/ e = IndexError).
Proof.
  intros R Hreq [Hnet Hst] Hl Hpre Hd Hs Hnd Hne Hload Hshape.
  assert (He : shape_error e).
  { destruct Hshape as [[_ H] | [_ H]];
      [exact (message_content_raise _ _ H) | exact (delta_content_raise _ _ H)]. }
  assert (Hh : line_handler json_loads (provider c) d = Throw e).
  { apply str_eqb_neq in Hnd.
    destruct Hshape as [[Hp H] | [Hp H]]; rewrite Hp; unfold line_handler;
      simpl; unfold plain_line; rewrite Hs, Hnd;
      (destruct (sse_payload d) as [|x js] eqn:Ep; [contradiction|]);
      unfold loads; rewrite Hload; simpl; rewrite H; reflexivity. }
  pose proof (run_response json_loads w c h model messages images stream req r
                Hreq Hnet) as Hrun.
  fold R in Hrun.
  rewrite (consume_delivered json_loads c r Hst), Hl, iter_lines_app, Hpre in Hrun.
  rewrite (iter_lines_cons _ _ _ _ d Hd (startswith_nonempty d Hs)), Hh in Hrun.
  unfold stream_failure in Hrun. cbv beta iota in Hrun.
  rewrite app_nil_r, (handlers_shape_error _ _ _ He) in Hrun.
  injection Hrun as -> ->. split; [reflexivity|]. split; [reflexivity|].
  destruct He as [[-> | [-> | ->]] | ->]; tauto.
Qed.

End Loop.

(** ** Padding, blank lines, text that decodes *)

Lemma startswith_app (p s : pystr) : startswith p (p ++ s) = true.
Proof.
  induction p as [|x p IH]; simpl; [reflexivity|].
  rewrite N.eqb_refl. exact IH.
Qed.

Lemma skipn_prefix (p s : pystr) : List.skipn (List.length p) (p ++ s) = s.
Proof. induction p as [|x p IH]; simpl; [reflexivity | exact IH]. Qed.

Lemma rstrip_by_keep (f : N -> bool) (s : pystr) (z : N) :
  f z = false -> rstrip_by f (s ++ [z]) = s ++ [z].
Proof.
  intros Hz. unfold rstrip_by. rewrite rev_app_distr. simpl. rewrite Hz.
  simpl. rewrite rev_involutive. reflexivity.
Qed.

Lemma strip_padded (ws1 ws2 mid : pystr) (a z : N) :
  Forall (fun c => is_space c = true) ws1 ->
  Forall (fun c => is_space c = true) ws2 ->
  is_space a = false -> is_space z = false ->
  strip (ws1 ++ (a :: mid ++ [z]) ++ ws2) = a :: mid ++ [z].
Proof.
  intros H1 H2 Ha Hz. unfold strip.
  rewrite (lstrip_by_app_all is_space ws1 _ H1).
  assert (Hl : lstrip_by is_space ((a :: mid ++ [z]) ++ ws2)
               = (a :: mid ++ [z]) ++ ws2).
  { simpl. rewrite Ha. reflexivity. }
  rewrite Hl, (rstrip_by_app_all is_space _ ws2 H2).
  exact (rstrip_by_keep is_space (a :: mid) z Hz).
Qed.

Section Padding.

Variable json_loads : pystr -> json_result.

(** X17. White space around the payload of an SSE line does not count:
    the payload read from [data: ], padding, text, padding is the text.
    In particular a padded [[DONE]] still ends the stream, for every
    provider. *)
Theorem payload_padding_is_ignored (ws1 ws2 mid : pystr) (a z : N) (p : pystr) :
  Forall (fun c => is_space c = true) ws1 ->
  Forall (fun c => is_space c = true) ws2 ->
  is_space a = false -> is_space z = false ->
  sse_payload (py "data: " ++ ws1 ++ (a :: mid ++ [z]) ++ ws2) = a :: mid ++ [z] /\
  (a :: mid ++ [z] = py "[DONE]" ->
   line_handler json_loads p (py "data: " ++ ws1 ++ (a :: mid ++ [z]) ++ ws2) = Break).
Proof.
  intros H1 H2 Ha Hz.
  assert (Hp : sse_payload (py "data: " ++ ws1 ++ (a :: mid ++ [z]) ++ ws2)
               = a :: mid ++ [z]).
  { unfold sse_payload.
    change 6%nat with (List.length (py "data: ")).
    rewrite skipn_prefix. apply strip_padded; assumption. }
  split; [exact Hp|].
  intros Hdone. apply line_handler_done.
  - apply startswith_app.
  - rewrite Hp. exact Hdone.
Qed.

Lemma iter_lines_blank (f : pystr -> action) (ls : list (list byte)) (raw : pystr) :
  iter_lines f raw (List.filter (fun line => negb (is_blank line)) ls)
  = iter_lines f raw ls.
Proof.
  revert raw. induction ls as [|line ls IH]; intros raw; [reflexivity|].
  destruct line as [|b0 line]; simpl; [apply IH|].
  destruct (decode (b0 :: line)) as [d|]; [|reflexivity].
  destruct (f d); try reflexivity; rewrite IH; reflexivity.
Qed.

(** X18. Empty lines, such as keep-alives, change nothing: the run on a
    response and the run on the same response without its empty lines
    yield the same fragments and end the same way. *)
Theorem blank_lines_are_ignored
    (w w' : world) (c : APIClient) (h : gmap nat dict) (model : pystr)
    (messages : list nat) (images : option (list pystr)) (stream : bool)
    (req req' : request) (r r' : response) :
  let R := generate_chat_response json_loads w c h model messages images stream in
  let R' := generate_chat_response json_loads w' c h model messages images stream in
  In req (requests_made R) -> delivered w req r ->
  In req' (requests_made R') -> delivered w' req' r' ->
  iter_error r = iter_error r' ->
  lines r' = List.filter (fun line => negb (is_blank line)) (lines r) ->
  fragments R = fragments R' /\ escaped R = escaped R'.
Proof.
  intros R R' Hreq [Hnet Hst] Hreq' [Hnet' Hst'] Hit Hl.
  pose proof (run_response json_loads w c h model messages images stream req r
                Hreq Hnet) as Hrun.
  pose proof (run_response json_loads w' c h model messages images stream req' r'
                Hreq' Hnet') as Hrun'.
  fold R in Hrun. fold R' in Hrun'.
  rewrite (consume_delivered json_loads c r Hst) in Hrun.
  rewrite (consume_delivered json_loads c r' Hst'), Hl, iter_lines_blank, <- Hit
    in Hrun'.
  rewrite <- Hrun' in Hrun. injection Hrun as -> ->. split; reflexivity.
Qed.

Lemma iter_kobold_text (ls : list (list byte)) (raw : pystr) :
  Forall (fun line => decode line <> None) ls ->
  snd (iter_lines (kobold_line json_loads) raw ls) = Exhausted \/
  snd (iter_lines (kobold_line json_loads) raw ls) = Broke.
Proof.
  intros Hall. revert raw. induction Hall as [|line ls Hd _ IH]; intros raw; simpl.
  - left. reflexivity.
  - destruct line as [|b0 line]; [apply IH|].
    destruct (decode (b0 :: line)) as [d|]; [|contradiction].
    destruct (kobold_line json_loads d) eqn:Ek.
    + apply IH.
    + specialize (IH (raw ++ d ++ nl)).
      destruct (iter_lines _ (raw ++ d ++ nl) ls) as [[ys r0] e]. exact IH.
    + right. reflexivity.
    + exfalso. exact (kobold_line_no_throw json_loads d e Ek).
Qed.

(** X19. Once its request is out, the Koboldcpp generator cannot raise
    on a response whose lines are all valid UTF-8: whatever the status,
    the payloads and the end of the stream, it ends normally. *)
Theorem koboldcpp_text_never_raises
    (w : world) (c : APIClient) (h : gmap nat dict) (model : pystr)
    (messages : list nat) (images : option (list pystr)) (stream : bool)
    (req : request) :
  let R := generate_chat_response json_loads w c h model messages images stream in
  provider c = Koboldcpp ->
  In req (requests_made R) ->
  (forall r, net w req = NetResp r ->
             Forall (fun line => decode line <> None) (lines r)) ->
  escaped R = None.
Proof.
  intros R Hp Hreq Htext.
  destruct (net w req) as [msg|r] eqn:Hnet.
  - exact (proj2 (run_failure json_loads w c h model messages images stream req msg
                    Hreq Hnet)).
  - pose proof (run_response json_loads w c h model messages images stream req r
                  Hreq Hnet) as Hrun.
    fold R in Hrun. change (escaped R) with (snd (fragments R, escaped R)).
    rewrite Hrun. unfold consume, raise_for_status.
    destruct ((400 <=? status_code r) && (status_code r <? 600))%Z; [reflexivity|].
    assert (Hk : line_handler json_loads (provider c) = kobold_line json_loads).
    { rewrite Hp. reflexivity. }
    rewrite Hk.
    pose proof (iter_kobold_text (lines r) [] (Htext r eq_refl)) as He.
    destruct (iter_lines (kobold_line json_loads) [] (lines r)) as [[ys raw] e].
    simpl in He. destruct He as [-> | ->]; destruct (iter_error r); reflexivity.
Qed.

Lemma iter_lines_decode_error (f : pystr -> action) (ls : list (list byte))
    (raw0 raw : pystr) (ys : list json) (msg : pystr) :
  iter_lines f raw0 ls = (ys, raw, Raised (JSONDecodeError msg)) -> raw <> [].
Proof.
  revert raw0 ys. induction ls as [|line ls IH]; intros raw0 ys; simpl;
    [discriminate|].
  destruct line as [|b0 line]; [apply IH|].
  destruct (decode (b0 :: line)) as [d|]; [|discriminate].
  destruct (f d).
  - apply IH.
  - destruct (iter_lines f (raw0 ++ d ++ nl) ls) as [[ys0 r0] e0] eqn:E.
    intros [= _ <- ->]. exact (IH _ _ E).
  - discriminate.
  - intros [= _ <- _]. destruct raw0; destruct d; discriminate.
Qed.

(** X20. The diagnostic of a decoding failure always shows what was
    received: when the loop stops on a [JSONDecodeError] the accumulated
    text is not empty, so the [Response was empty.] wording cannot
    appear. *)
Theorem decode_diagnostic_is_never_empty
    (p : pystr) (r : response) (ys : list json) (raw msg : pystr) :
  consume json_loads p r = (ys, raw, Raised (JSONDecodeError msg)) ->
  raw <> [] /\ occurs_in raw (decode_error_text msg raw).
Proof.
  unfold consume. destruct (raise_for_status r) as [[]|e] eqn:Hst.
  - intros H.
    destruct (iter_lines (line_handler json_loads p) [] (lines r))
      as [[ys0 raw0] e0] eqn:E.
    assert (Hraw : raw0 = raw /\ e0 = Raised (JSONDecodeError msg)).
    { unfold stream_failure in H.
      destruct e0; destruct (iter_error r); injection H as _ <- He;
        try discriminate He; split; congruence. }
    destruct Hraw as [<- ->].
    pose proof (iter_lines_decode_error _ _ _ _ _ _ E) as Hne.
    split; [exact Hne | exact (decode_error_text_raw msg raw0 Hne)].
  - unfold raise_for_status in Hst.
    destruct ((400 <=? status_code r) && (status_code r <? 600))%Z;
      [|discriminate].
    injection Hst as <-. discriminate.
Qed.

End Padding.

(** ** When the attachment fails *)

Section AttachmentFails.

Variable json_loads : pystr -> json_result.

Lemma encode_unreadable (w : world) (good rest : list pystr) (bad : pystr) :
  Forall (readable w) good -> fs w bad = None ->
  mapM (_encode_image w) (good ++ bad :: rest) = Raise (OSError bad).
Proof.
  intros Hgood Hbad. induction Hgood as [|path good Hr _ IH]; simpl.
  - unfold _encode_image at 1. rewrite Hbad. reflexivity.
  - unfold readable in Hr. unfold _encode_image at 1.
    destruct (fs w path); [|contradiction]. simpl. rewrite IH. reflexivity.
Qed.

Lemma run_attach_raises (w : world) (c : APIClient) (h : gmap nat dict)
    (model : pystr) (messages : list nat) (images : option (list pystr))
    (stream : bool) (e : exn) :
  attach_images w c h messages images = Raise e ->
  let R := generate_chat_response json_loads w c h model messages images stream in
  store_after R = h /\ fragments R = [] /\ requests_made R = [] /\
  escaped R = Some e.
Proof.
  intros Ha. simpl. unfold generate_chat_response. rewrite Ha. repeat split.
Qed.

(** X21. The images are read in order before anything else happens: at
    the first file that cannot be read the generator raises the error of
    that file, having written nothing, sent nothing and yielded nothing,
    even when the files before it were read. *)
Theorem first_unreadable_image_stops_everything
    (w : world) (c : APIClient) (h : gmap nat dict) (model : pystr)
    (ms : list nat) (l : nat) (d : dict) (content : json)
    (good rest : list pystr) (bad : pystr) (stream : bool) :
  let R := generate_chat_response json_loads w c h model (ms ++ [l])
             (Some (good ++ bad :: rest)) stream in
  h !! l = Some d ->
  dict_get (py "role") d = Some (JStr (py "user")) ->
  dict_get (py "content") d = Some content ->
  Forall (readable w) good ->
  fs w bad = None ->
  store_after R = h /\ fragments R = [] /\ requests_made R = [] /\
  escaped R = Some (OSError bad).
Proof.
  intros R Hl Hr Hc Hgood Hbad. apply run_attach_raises.
  rewrite (attach_images_last w c h ms l d (good ++ bad :: rest));
    [|destruct good; discriminate | exact Hl].
  unfold subscript. rewrite Hr, Hc. cbn [bind eq_str]. rewrite str_eqb_refl.
  rewrite (encode_unreadable w good rest bad Hgood Hbad).
  destruct (openai_style (provider c)); reflexivity.
Qed.

(** X22. A last message without [role], or for LM Studio and Koboldcpp
    a user message without [content], makes the generator raise
    [KeyError] as soon as images are given: nothing is written, sent or
    yielded. *)
Theorem missing_key_stops_everything
    (w : world) (c : APIClient) (h : gmap nat dict) (model : pystr)
    (ms : list nat) (l : nat) (d : dict) (imgs : list pystr) (stream : bool) :
  let R := generate_chat_response json_loads w c h model (ms ++ [l]) (Some imgs) stream in
  imgs <> [] ->
  h !! l = Some d ->
  (dict_get (py "role") d = None \/
   (dict_get (py "role") d = Some (JStr (py "user")) /\
    (provider c = LM_Studio \/ provider c = Koboldcpp) /\
    dict_get (py "content") d = None)) ->
  store_after R = h /\ fragments R = [] /\ requests_made R = [] /\
  escaped R = Some KeyError.
Proof.
  intros R Hne Hl Hcase. apply run_attach_raises.
  rewrite (attach_images_last w c h ms l d imgs Hne Hl). unfold subscript.
  destruct Hcase as [Hr | (Hr & Hp & Hc)].
  - rewrite Hr. reflexivity.
  - rewrite Hr, Hc. cbn [bind eq_str]. rewrite str_eqb_refl.
    assert (Ho : openai_style (provider c) = true)
      by (destruct Hp as [-> | ->]; reflexivity).
    rewrite Ho. reflexivity.
Qed.

End AttachmentFails.

(** ** The further properties at work *)

Lemma transport_and_decode_errors_stay_inside_witness :
  (forall msg, UnicodeDecodeError <> RequestException msg) /\
  (forall msg, UnicodeDecodeError <> JSONDecodeError msg).
Proof.
  apply (transport_and_decode_errors_stay_inside json_loads_ref
           (serving (ok_stream [delta_hello; not_utf8; delta_world]))
           (local Koboldcpp) ∅ (py "m") [] None true UnicodeDecodeError).
  by_running.
Defined.

Lemma only_last_message_is_written_witness :
  store_after (generate_chat_response json_loads_ref with_cat (local Ollama)
                 two_messages (py "m") [0%nat; 1%nat] (Some [py "cat.png"]) true)
    !! 0%nat
  = two_messages !! 0%nat.
Proof.
  apply (only_last_message_is_written json_loads_ref with_cat (local Ollama)
           two_messages (py "m") [0%nat; 1%nat] (Some [py "cat.png"]) true 0%nat).
  vm_compute. discriminate.
Defined.

Lemma nothing_attached_nothing_written_witness :
  store_after (generate_chat_response json_loads_ref with_cat (local Ollama)
                 two_messages (py "m") [0%nat; 1%nat] (Some []) true)
  = two_messages /\
  requests_made (generate_chat_response json_loads_ref with_cat (local Ollama)
                   two_messages (py "m") [0%nat; 1%nat] (Some []) true)
  = [chat_request (local Ollama)
       (chat_payload two_messages (py "m") [0%nat; 1%nat] true)].
Proof.
  apply (nothing_attached_nothing_written json_loads_ref with_cat (local Ollama)
           two_messages (py "m") [0%nat; 1%nat] (Some []) true).
  right. left. reflexivity.
Defined.

Lemma broken_stream_keeps_fragments_witness :
  fragments (generate_chat_response json_loads_ref (serving broken_after_hello)
               (local Ollama) ∅ (py "m") [] None true)
  = [JStr (py "Hello")] ++ [JStr (connection_error_text (py "Connection broken"))] /\
  escaped (generate_chat_response json_loads_ref (serving broken_after_hello)
             (local Ollama) ∅ (py "m") [] None true) = None.
Proof.
  apply (broken_stream_keeps_fragments json_loads_ref (serving broken_after_hello)
           (local Ollama) ∅ (py "m") [] None true (first_chat (local Ollama))
           broken_after_hello [JStr (py "Hello")] (transcript [ollama_hello])
           (py "Connection broken")).
  - left. by_running.
  - split; reflexivity.
  - by_running.
  - reflexivity.
Defined.

Ltac raw_json_line_holds :=
  eexists _, _, _; split; [by_running|]; split; [by_running|];
  split; [by_running|]; split; [by_running|]; split; by_running.

Lemma raw_json_lines_stream_witness :
  fragments (run_on [ndjson_hello; ndjson_world] Ollama)
  = List.map JStr (List.filter nonempty [py "Hello"; py " world"]) /\
  escaped (run_on [ndjson_hello; ndjson_world] Ollama) = None /\
  List.concat (List.filter nonempty [py "Hello"; py " world"])
  = List.concat [py "Hello"; py " world"].
Proof.
  apply (raw_json_lines_stream json_loads_ref
           (serving (ok_stream [ndjson_hello; ndjson_world])) (local Ollama)
           ∅ (py "m") [] None true (first_chat (local Ollama))
           (ok_stream [ndjson_hello; ndjson_world]) [py "Hello"; py " world"]).
  - left. reflexivity.
  - left. by_running.
  - split; reflexivity.
  - reflexivity.
  - constructor; [raw_json_line_holds|]. constructor; [raw_json_line_holds|].
    constructor.
Defined.

Lemma koboldcpp_ignores_unprefixed_lines_witness :
  fragments (run_on [ndjson_hello; ndjson_world] Koboldcpp) = [] /\
  escaped (run_on [ndjson_hello; ndjson_world] Koboldcpp) = None.
Proof.
  apply (koboldcpp_ignores_unprefixed_lines json_loads_ref
           (serving (ok_stream [ndjson_hello; ndjson_world])) (local Koboldcpp)
           ∅ (py "m") [] None true (first_chat (local Koboldcpp))
           (ok_stream [ndjson_hello; ndjson_world])).
  - reflexivity.
  - left. by_running.
  - split; reflexivity.
  - reflexivity.
  - constructor; [eexists; split; by_running|].
    constructor; [eexists; split; by_running|]. constructor.
Defined.

Lemma wrong_shape_ends_plain_stream_witness :
  fragments (run_on [ollama_hello; no_message; ollama_world] Ollama)
  = [JStr (py "Hello")] /\
  escaped (run_on [ollama_hello; no_message; ollama_world] Ollama) = Some KeyError /\
  (KeyError = KeyError \/ KeyError = TypeError \/ KeyError = AttributeError
   \/ KeyError = IndexError).
Proof.
  apply (wrong_shape_ends_plain_stream json_loads_ref
           (serving (ok_stream [ollama_hello; no_message; ollama_world]))
           (local Ollama) ∅ (py "m") [] None true (first_chat (local Ollama))
           (ok_stream [ollama_hello; no_message; ollama_world])
           [ollama_hello] [ollama_world] no_message
           (js "data: {'done':true}") (JObj [(py "done", JBool true)])
           KeyError [JStr (py "Hello")] (transcript [ollama_hello])).
  - left. by_running.
  - split; reflexivity.
  - reflexivity.
  - by_running.
  - by_running.
  - by_running.
  - vm_compute. discriminate.
  - vm_compute. discriminate.
  - by_running.
  - left. split; by_running.
Defined.

Lemma payload_padding_is_ignored_witness :
  sse_payload (py "data: " ++ [32; 32] ++ (91 :: py "DONE" ++ [93]) ++ [9])
  = 91 :: py "DONE" ++ [93] /\
  (91 :: py "DONE" ++ [93] = py "[DONE]" ->
   line_handler json_loads_ref Ollama
     (py "data: " ++ [32; 32] ++ (91 :: py "DONE" ++ [93]) ++ [9]) = Break).
Proof.
  apply (payload_padding_is_ignored json_loads_ref [32; 32] [9] (py "DONE") 91 93 Ollama).
  - repeat constructor.
  - repeat constructor.
  - reflexivity.
  - reflexivity.
Defined.

Lemma blank_lines_are_ignored_witness :
  fragments (run_on [ollama_hello; []; ollama_world] Ollama)
  = fragments (run_on [ollama_hello; ollama_world] Ollama) /\
  escaped (run_on [ollama_hello; []; ollama_world] Ollama)
  = escaped (run_on [ollama_hello; ollama_world] Ollama).
Proof.
  apply (blank_lines_are_ignored json_loads_ref
           (serving (ok_stream [ollama_hello; []; ollama_world]))
           (serving (ok_stream [ollama_hello; ollama_world]))
           (local Ollama) ∅ (py "m") [] None true
           (first_chat (local Ollama)) (first_chat (local Ollama))
           (ok_stream [ollama_hello; []; ollama_world])
           (ok_stream [ollama_hello; ollama_world])).
  - left. by_running.
  - split; reflexivity.
  - left. by_running.
  - split; reflexivity.
  - reflexivity.
  - reflexivity.
Defined.

Lemma koboldcpp_text_never_raises_witness :
  escaped (run_on [delta_hello; no_choices; truncated_json; delta_world] Koboldcpp)
  = None.
Proof.
  apply (koboldcpp_text_never_raises json_loads_ref
           (serving (ok_stream [delta_hello; no_choices; truncated_json; delta_world]))
           (local Koboldcpp) ∅ (py "m") [] None true (first_chat (local Koboldcpp))).
  - reflexivity.
  - left. by_running.
  - intros r [= <-].
    repeat (constructor; [vm_compute; discriminate|]). constructor.
Defined.

Lemma decode_diagnostic_is_never_empty_witness :
  transcript [ollama_hello; truncated_json] <> [] /\
  occurs_in (transcript [ollama_hello; truncated_json])
    (decode_error_text (py "Expecting value")
       (transcript [ollama_hello; truncated_json])).
Proof.
  apply (decode_diagnostic_is_never_empty json_loads_ref Ollama
           (ok_stream [ollama_hello; truncated_json; ollama_world])
           [JStr (py "Hello")]).
  by_running.
Defined.

Lemma first_unreadable_image_stops_everything_witness :
  store_after (generate_chat_response json_loads_ref with_cat (local LM_Studio)
                 one_message (py "m") ([] ++ [0%nat])
                 (Some ([py "cat.png"] ++ py "dog.png" :: [])) true)
  = one_message /\
  fragments (generate_chat_response json_loads_ref with_cat (local LM_Studio)
               one_message (py "m") ([] ++ [0%nat])
               (Some ([py "cat.png"] ++ py "dog.png" :: [])) true) = [] /\
  requests_made (generate_chat_response json_loads_ref with_cat (local LM_Studio)
                   one_message (py "m") ([] ++ [0%nat])
                   (Some ([py "cat.png"] ++ py "dog.png" :: [])) true) = [] /\
  escaped (generate_chat_response json_loads_ref with_cat (local LM_Studio)
             one_message (py "m") ([] ++ [0%nat])
             (Some ([py "cat.png"] ++ py "dog.png" :: [])) true)
  = Some (OSError (py "dog.png")).
Proof.
  apply (first_unreadable_image_stops_everything json_loads_ref with_cat
           (local LM_Studio) one_message (py "m") [] 0%nat greeting
           (JStr (py "hi")) [py "cat.png"] [] (py "dog.png") true).
  - reflexivity.
  - by_running.
  - by_running.
  - constructor; [vm_compute; discriminate | constructor].
  - by_running.
Defined.

Lemma missing_key_stops_everything_witness :
  store_after (generate_chat_response json_loads_ref with_cat (local Ollama)
                 {[ 0%nat := without_role ]} (py "m") ([] ++ [0%nat])
                 (Some [py "cat.png"]) true)
  = {[ 0%nat := without_role ]} /\
  fragments (generate_chat_response json_loads_ref with_cat (local Ollama)
               {[ 0%nat := without_role ]} (py "m") ([] ++ [0%nat])
               (Some [py "cat.png"]) true) = [] /\
  requests_made (generate_chat_response json_loads_ref with_cat (local Ollama)
                   {[ 0%nat := without_role ]} (py "m") ([] ++ [0%nat])
                   (Some [py "cat.png"]) true) = [] /\
  escaped (generate_chat_response json_loads_ref with_cat (local Ollama)
             {[ 0%nat := without_role ]} (py "m") ([] ++ [0%nat])
             (Some [py "cat.png"]) true) = Some KeyError.
Proof.
  apply (missing_key_stops_everything json_loads_ref with_cat (local Ollama)
           {[ 0%nat := without_role ]} (py "m") [] 0%nat without_role
           [py "cat.png"] true).
  - discriminate.
  - reflexivity.
  - left. by_running.
Defined.

(** ** What the attachment keeps of the last message *)

Section KeptKeys.

Variable json_loads : pystr -> json_result.

(** X23. A successful attachment changes one key of the last message
    and no other: for LM Studio and Koboldcpp every key but [content]
    keeps its value, for Ollama every key but [images] does, so the role
    stays [user] and, for Ollama, the text stays where it was. *)
Theorem attachment_keeps_other_keys
    (w : world) (c : APIClient) (h : gmap nat dict) (model : pystr)
    (ms : list nat) (l : nat) (d : dict) (content : json)
    (imgs : list pystr) (stream : bool) (k : pystr) :
  let R := generate_chat_response json_loads w c h model (ms ++ [l]) (Some imgs) stream in
  imgs <> [] ->
  h !! l = Some d ->
  dict_get (py "role") d = Some (JStr (py "user")) ->
  dict_get (py "content") d = Some content ->
  Forall (readable w) imgs ->
  k <> (if openai_style (provider c) then py "content" else py "images") ->
  dict_get k (deref (store_after R) l) = dict_get k d.
Proof.
  intros R Hne Hl Hr Hc Hread Hk.
  destruct (openai_style (provider c)) eqn:Ho.
  - pose proof (attach_images_content w c h ms l d imgs Hne Hl content
                  Hr Ho Hc Hread) as Ha.
    destruct (store_after_attach json_loads w c h _ model _ _ stream Ha) as [Hs _].
    fold R in Hs. rewrite Hs. unfold deref. rewrite lookup_insert_eq.
    apply dict_get_set_ne. exact Hk.
  - pose proof (attach_images_ollama w c h ms l d imgs Hne Hl Hr Ho Hread) as Ha.
    destruct (store_after_attach json_loads w c h _ model _ _ stream Ha) as [Hs _].
    fold R in Hs. rewrite Hs. unfold deref. rewrite lookup_insert_eq.
    apply dict_get_set_ne. exact Hk.
Qed.

End KeptKeys.

Lemma attachment_keeps_other_keys_witness :
  dict_get (py "content")
    (deref (store_after
              (generate_chat_response json_loads_ref with_cat (local Ollama)
                 one_message (py "m") ([] ++ [0%nat]) (Some [py "cat.png"]) true))
           0%nat)
  = dict_get (py "content") greeting.
Proof.
  apply (attachment_keeps_other_keys json_loads_ref with_cat (local Ollama)
           one_message (py "m") [] 0%nat greeting (JStr (py "hi"))
           [py "cat.png"] true (py "content")).
  - discriminate.
  - reflexivity.
  - by_running.
  - by_running.
  - constructor; [vm_compute; discriminate | constructor].
  - vm_compute. discriminate.
Defined.

(** The listing of X6 on an owner spelt with capitals: the entry of that
    owner is left out, the other one is listed. *)
Lemma capitalised_owner_hides_only_itself :
  fst (get_available_models json_loads_ref ascii_lower
         (serving (ok_body mixed_case_body)) (local Ollama))
  = Ok [JStr (py "b")].
Proof. by_running. Qed.

(** ** Koboldcpp reads past malformed lines *)

Section ReadingPast.

Variable json_loads : pystr -> json_result.
Hypothesis loads_done : forall v, json_loads (py "[DONE]") <> Parsed v.
Hypothesis loads_empty : forall v, json_loads [] <> Parsed v.

Lemma kobold_line_read (line : list byte) (word : pystr) :
  sse_line json_loads Koboldcpp line word ->
  exists d, decode line = Some d /\ d <> [] /\
            kobold_line json_loads d =
            if nonempty word then Yield (JStr word) else Continue.
Proof.
  intros (d & chunk & Hd & Hs & Hl & Hc). exists d.
  split; [exact Hd|]. split; [exact (startswith_nonempty d Hs)|].
  exact (line_handler_sse json_loads loads_done loads_empty Koboldcpp d chunk word
           Hs Hl Hc).
Qed.

Lemma iter_kobold_reads (ls : list (list byte)) (outs : list (option pystr)) :
  Forall2 (read_or_skipped json_loads) ls outs ->
  forall raw,
    iter_lines (kobold_line json_loads) raw ls =
    (List.map JStr (List.filter nonempty (words_read outs)),
     raw ++ transcript ls, Exhausted).
Proof.
  induction 1 as [|line out ls outs Hline _ IH]; intros raw.
  - simpl. rewrite app_nil_r. reflexivity.
  - change (line :: ls) with ([line] ++ ls). rewrite transcript_app.
    destruct out as [word|]; simpl in Hline.
    + destruct (kobold_line_read line word Hline) as (d & Hd & Hne & Hh).
      simpl app at 1.
      rewrite (iter_lines_cons _ _ _ _ d Hd Hne), Hh, IH.
      rewrite (transcript_one line d Hd Hne), <- !app_assoc.
      cbn [words_read List.flat_map app List.filter].
      destruct (nonempty word); reflexivity.
    + assert (Hskip : line = [] \/
                      exists d, decode line = Some d /\ d <> [] /\
                                kobold_line json_loads d = Continue).
      { destruct Hline as [Hmal | (d & Hd & Hs)].
        - right. exact (kobold_line_malformed json_loads line Hmal).
        - destruct line as [|b0 line]; [left; reflexivity|].
          right. exists d. split; [exact Hd|].
          split; [exact (decode_cons_nonempty b0 line d Hd)|].
          exact (kobold_line_unprefixed json_loads d Hs). }
      destruct Hskip as [-> | (d & Hd & Hne & Hh)].
      * simpl. apply IH.
      * simpl app at 1.
        rewrite (iter_lines_cons _ _ _ _ d Hd Hne), Hh, IH.
        rewrite (transcript_one line d Hd Hne), <- !app_assoc.
        reflexivity.
Qed.

(** C6, as the code has it.  With provider Koboldcpp, a line of UTF-8
    text with the SSE prefix whose payload is malformed JSON, or lacks
    the [choices[0].delta] shape, is skipped without ending the
    sequence: after the fragments of the lines before it, every later
    well-formed SSE line yields its content, in order, whatever
    malformed, empty or unprefixed lines stand between them, and the
    generator ends normally. *)
Theorem koboldcpp_reads_past_malformed
    (w : world) (c : APIClient) (h : gmap nat dict) (model : pystr)
    (messages : list nat) (images : option (list pystr)) (stream : bool)
    (req : request) (r : response)
    (pre rest : list (list byte)) (bad : list byte)
    (ys : list json) (raw : pystr) (outs : list (option pystr)) :
  let R := generate_chat_response json_loads w c h model messages images stream in
  provider c = Koboldcpp ->
  In req (requests_made R) ->
  delivered w req r ->
  iter_error r = None ->
  lines r = pre ++ bad :: rest ->
  iter_lines (line_handler json_loads (provider c)) [] pre = (ys, raw, Exhausted) ->
  malformed_sse_line json_loads bad ->
  Forall2 (read_or_skipped json_loads) rest outs ->
  fragments R = ys ++ List.map JStr (List.filter nonempty (words_read outs)) /\
  escaped R = None.
Proof.
  intros R Hp Hreq [Hnet Hst] Hit Hl Hpre Hbad Hrest.
  destruct (kobold_line_malformed json_loads bad Hbad) as (d & Hd & Hne & Hskip).
  pose proof (run_response json_loads w c h model messages images stream req r
                Hreq Hnet) as Hrun.
  fold R in Hrun.
  assert (Hk : line_handler json_loads (provider c) = kobold_line json_loads).
  { rewrite Hp. reflexivity. }
  rewrite Hk in Hpre.
  rewrite (consume_delivered json_loads c r Hst), Hk, Hl, iter_lines_app, Hpre in Hrun.
  rewrite (iter_lines_cons _ _ _ _ d Hd Hne), Hskip in Hrun.
  rewrite (iter_kobold_reads rest outs Hrest), Hit in Hrun.
  simpl in Hrun. injection Hrun as -> ->. split; reflexivity.
Qed.

End ReadingPast.

Lemma koboldcpp_reads_past_malformed_witness :
  fragments (run_on [delta_hello; no_choices; truncated_json; delta_world] Koboldcpp)
  = [JStr (py "Hello")]
    ++ List.map JStr (List.filter nonempty (words_read [None; Some (py " world")])) /\
  escaped (run_on [delta_hello; no_choices; truncated_json; delta_world] Koboldcpp)
  = None.
Proof.
  apply (koboldcpp_reads_past_malformed json_loads_ref ref_done ref_empty
           (serving (ok_stream [delta_hello; no_choices; truncated_json; delta_world]))
           (local Koboldcpp) ∅ (py "m") [] None true (first_chat (local Koboldcpp))
           (ok_stream [delta_hello; no_choices; truncated_json; delta_world])
           [delta_hello] [truncated_json; delta_world] no_choices
           [JStr (py "Hello")] (transcript [delta_hello])
           [None; Some (py " world")]).
  - reflexivity.
  - left. by_running.
  - split; reflexivity.
  - reflexivity.
  - reflexivity.
  - by_running.
  - eexists. split; [by_running|]. split; [by_running|].
    split; [vm_compute; discriminate|].
    right. eexists _, _. split; by_running.
  - constructor.
    + left. eexists. split; [by_running|]. split; [by_running|].
      split; [vm_compute; discriminate|].
      left. intros chunk H. vm_compute in H. discriminate H.
    + constructor; [|constructor].
      eexists _, _. split; [by_running|]. split; [by_running|].
      split; [by_running|]. vm_compute. eexists _, _, _, _. repeat split.
Defined.

(** C6 fails on a line that is not UTF-8: [line.decode] stands outside
    the inner [try], so the generator ends with [UnicodeDecodeError] and
    the well-formed line after it yields nothing. *)
Lemma undecodable_sse_line_ends_stream :
  List.firstn 6 not_utf8 = bytes_of "data: " /\
  decode not_utf8 = None /\
  sse_line json_loads_ref Koboldcpp delta_world (py " world") /\
  fragments (run_on [delta_hello; not_utf8; delta_world] Koboldcpp)
  = [JStr (py "Hello")] /\
  escaped (run_on [delta_hello; not_utf8; delta_world] Koboldcpp)
  = Some UnicodeDecodeError.
Proof.
  split; [by_running|]. split; [by_running|]. split.
  - eexists _, _. split; [by_running|]. split; [by_running|].
    split; [by_running|]. vm_compute. eexists _, _, _, _. repeat split.
  - split; by_running.
Qed.
